(** * MRConfluenceLinker: merge-request analysis and wiki publishing

    A shallow embedding of [src/gitlab_pr.py] (class [GitLabPRManager]) and
    [src/pr_analyzer.py] (class [PRAnalyzer] and its three tools
    [fetch_mr_details], [analyze_code_changes], [store_in_confluence]).

    Python [str] values are modelled as [string].  The only characters the
    code inspects ([+], [-], [.], [/]) are ASCII, and an ASCII byte never
    occurs inside a multi-byte UTF-8 sequence, so counting, searching and
    splitting on them byte-wise agrees with Python's code-point-wise
    behaviour.  Logging calls have no influence on results and are left
    out. *)

From stdpp Require Import base option list strings pretty gmap fin_maps.
From Stdlib Require Import Ascii ZArith Lia.

(** ** Python string primitives used by the code *)

Module PyStr.

(** [s.count(c)] for a one-character [c]. *)
Fixpoint count (c : ascii) (s : string) : nat :=
match s with
| EmptyString => 0
| String a s' => (if Ascii.eqb a c then 1 else 0) + count c s'
end.

(** [c in s] for a one-character [c]. *)
Fixpoint contains (c : ascii) (s : string) : bool :=
match s with
| EmptyString => false
| String a s' => if Ascii.eqb a c then true else contains c s'
end.

(** [s.split(c)] for a one-character separator: the list of the maximal
  separator-free pieces, never empty. *)
Fixpoint split (c : ascii) (s : string) : list string :=
match s with
| EmptyString => [EmptyString]
| String a s' =>
    if Ascii.eqb a c then EmptyString :: split c s'
    else match split c s' with
         | piece :: rest => String a piece :: rest
         | [] => [String a EmptyString]
         end
end.

(** [l[-1]] on a list of strings: [None] stands for Python's IndexError. *)
Definition last_item (l : list string) : option string := last l.

(** [s.replace(old, new)] for a one-character [old]. *)
Fixpoint replace (old : ascii) (new : string) (s : string) : string :=
match s with
| EmptyString => EmptyString
| String a s' =>
    if Ascii.eqb a old then new +:+ replace old new s'
    else String a (replace old new s')
end.

(** The characters of a string, for stating what [count] computes. *)
Fixpoint chars (s : string) : list ascii :=
match s with
| EmptyString => []
| String a s' => a :: chars s'
end.

(** Number of positions of [s] holding the character [c]. *)
Definition occurrences (c : ascii) (s : string) : nat :=
length (filter (λ a, a = c) (chars s)).

End PyStr.

(** ** File-extension category (pr_analyzer.py, line 129)

    [file_path.split('.')[-1] if '.' in file_path else 'unknown'] *)

Definition file_type (file_path : string) : string :=
  if PyStr.contains "." file_path
  then default "" (PyStr.last_item (PyStr.split "." file_path))
  else "unknown".

(** ** Exceptions and results

    The exception classes that the two modules raise, catch or let through.
    Each carries the text [str(e)] renders. *)

Inductive exn : Type :=
  | GitlabGetError (msg : string)
  | GitlabAuthenticationError (msg : string)
  | ClientError (msg : string)
      (* any other exception coming out of a client library *)
  | PyException (msg : string)
      (* a plain [Exception(msg)] *)
  | ValueError (msg : string)
  | AttributeError (msg : string)
  | TypeError (msg : string).

Definition str (e : exn) : string :=
  match e with
  | GitlabGetError m | GitlabAuthenticationError m | ClientError m
  | PyException m | ValueError m | AttributeError m | TypeError m => m
  end.

Inductive result (A : Type) : Type :=
  | Ok (a : A)
  | Raise (e : exn).
Arguments Ok {A} a.
Arguments Raise {A} e.

(** ** The hosting-platform client (python-gitlab), as the code consumes it

    A snapshot of the remote state: every call either completes with a value
    or raises. *)

Module Gitlab.

(** One entry of [mr.changes()['changes']]. *)
Record Change : Type := {
  old_path : string;
  new_path : string;
  diff : string
}.

Record Author : Type := {
  name : string;
  username : string
}.

(** A merge-request handle; [changes] is what [mr.changes()['changes']]
    gives when it is called. *)
Record MergeRequest : Type := {
  iid : Z;
  title : string;
  description : string;
  state : string;
  created_at : string;
  updated_at : string;
  author : Author;
  source_branch : string;
  target_branch : string;
  web_url : string;
  changes : result (list Change)
}.

Record Project : Type := {
  project_name : string;
  mergerequests_list : string → result (list MergeRequest);
  mergerequests_get : Z → result MergeRequest
}.

(** [gl.projects.get] *)
Record Client : Type := {
  projects_get : string → result Project
}.

End Gitlab.

(** ** Records built by the code *)

(** The dict built for one merge request (gitlab_pr.py lines 63-77,
    pr_analyzer.py lines 86-101).  The key ['changes'] exists only in the dict
    of [fetch_mr_details]; [None] stands for its absence. *)
Module MRDict.
Record t : Type := {
  id : Z;
  title : string;
  description : string;
  state : string;
  created_at : string;
  updated_at : string;
  author : Gitlab.Author;
  source_branch : string;
  target_branch : string;
  web_url : string;
  changes : option (list Gitlab.Change)
}.
End MRDict.

(** What [fetch_mr_details] returns: one dict, or the list of dicts of
    [get_merge_requests]. *)
Inductive MRDetails : Type :=
  | Single (d : MRDict.t)
  | Many (l : list MRDict.t).

(** An entry of [analysis['files']]. *)
Record FileEntry : Type := {
  path : string;
  type : string;
  additions : nat;
  deletions : nat
}.

(** The [analysis] dict of [analyze_code_changes]. *)
Record AnalysisReport : Type := {
  total_files_changed : nat;
  file_types : gmap string nat;
  total_additions : nat;
  total_deletions : nat;
  files : list FileEntry
}.

(** ** The wiki platform (atlassian Confluence client), as the code
    consumes it *)

(** The page body.  The three f-string templates of [store_in_confluence]
    are kept as the template chosen and the values interpolated into it. *)
Inductive Body : Type :=
  | SummaryBody (mrs : list MRDict.t)
  | DetailsBody (mr_details : MRDict.t)
  | ReportBody (mr_details : MRDict.t) (analysis : AnalysisReport).

Record Page : Type := {
  page_id : nat;
  page_space : string;
  page_title : string;
  page_body : Body;
  page_parent : option nat
}.

(** The ['_links'] of a page descriptor returned by [create_page]. *)
Record PageLinks : Type := {
  links_base : string;
  links_webui : string
}.

(** Calls to the two remote platforms, in the order they are made. *)
Inductive call : Type :=
  | ProjectsGet (identifier : string)
  | MergeRequestsList (state : string)
  | MergeRequestsGet (mr_id : Z)
  | Changes (iid : Z)
  | GetPageId (space title : string)
  | CreatePage (space title : string) (body : Body) (parent_id : option nat).

(** The wiki platform: its pages, the links it hands out, and the calls it
    refuses (for whatever reason a remote call may fail). *)
Record Wiki : Type := {
  wiki_base : string;
  wiki_webui : nat → string;
  wiki_pages : list Page;
  wiki_fault : call → option exn
}.

(** The world outside the process: the calls made so far and the wiki. *)
Record World : Type := {
  trace : list call;
  wiki : Wiki
}.

(** ** Computations: world passing with exceptions *)

Definition M (A : Type) : Type := World → result A * World.

#[global] Instance M_ret : MRet M := λ A a w, (Ok a, w).

#[global] Instance M_bind : MBind M := λ A B f m w,
  match m w with
  | (Ok a, w') => f a w'
  | (Raise e, w') => (Raise e, w')
  end.

Definition raise {A} (e : exn) : M A := λ w, (Raise e, w).

(** [try: m except <classes matched by h> as e: h e]; a handler returning
    [None] does not match the exception, which then propagates. *)
Definition try_except {A} (m : M A) (h : exn → option (M A)) : M A := λ w,
  match m w with
  | (Ok a, w') => (Ok a, w')
  | (Raise e, w') =>
      match h e with
      | Some k => k w'
      | None => (Raise e, w')
      end
  end.

(** Records a remote call. *)
Definition record (c : call) : M unit := λ w,
  (Ok tt, {| trace := trace w ++ [c]; wiki := wiki w |}).

(** A call to the hosting platform: recorded, then answered from the
    snapshot. *)
Definition remote {A} (c : call) (r : result A) : M A :=
  _ ← record c;
  match r with
  | Ok a => mret a
  | Raise e => raise e
  end.

(** A call to the wiki platform: recorded, refused if the platform refuses
    it, and otherwise answered from, and applied to, the wiki. *)
Definition wiki_call {A} (c : call) (answer : Wiki → A * Wiki) : M A := λ w,
  match wiki_fault (wiki w) c with
  | Some e => (Raise e, {| trace := trace w ++ [c]; wiki := wiki w |})
  | None =>
      let '(a, wk) := answer (wiki w) in
      (Ok a, {| trace := trace w ++ [c]; wiki := wk |})
  end.

Definition find_page (w : Wiki) (space title : string) : option Page :=
  snd <$>
    list_find (λ p, page_space p = space ∧ page_title p = title) (wiki_pages w).

(** An id no page of the wiki has yet. *)
Definition fresh_id (w : Wiki) : nat :=
  S (foldr Nat.max 0 (page_id <$> wiki_pages w)).

Definition add_page (w : Wiki) (p : Page) : Wiki :=
  {| wiki_base := wiki_base w;
     wiki_webui := wiki_webui w;
     wiki_pages := wiki_pages w ++ [p];
     wiki_fault := wiki_fault w |}.

(** [confluence.get_page_id(space, title)]: the id of the page of that
    title in that space, or [None]. *)
Definition get_page_id (space title : string) : M (option nat) :=
  wiki_call (GetPageId space title)
    (λ w, (page_id <$> find_page w space title, w)).

(** [confluence.create_page(space, title, body, parent_id)]: adds the page
    under [parent_id] (at the top of the space when it is [None]) and returns
    its links. *)
Definition create_page (space title : string) (body : Body)
    (parent_id : option nat) : M PageLinks :=
  wiki_call (CreatePage space title body parent_id)
    (λ w, let n := fresh_id w in
          ({| links_base := wiki_base w; links_webui := wiki_webui w n |},
           add_page w {| page_id := n; page_space := space;
                         page_title := title; page_body := body;
                         page_parent := parent_id |})).

(** ** gitlab_pr.py: class GitLabPRManager *)

Record GitLabPRManager : Type := {
  gl : Gitlab.Client
}.

(** The dict [mr_info] built for each listed merge request (lines 63-77). *)
Definition mr_info (mr : Gitlab.MergeRequest) : MRDict.t :=
  {| MRDict.id := Gitlab.iid mr;
     MRDict.title := Gitlab.title mr;
     MRDict.description := Gitlab.description mr;
     MRDict.state := Gitlab.state mr;
     MRDict.created_at := Gitlab.created_at mr;
     MRDict.updated_at := Gitlab.updated_at mr;
     MRDict.author := {| Gitlab.name := Gitlab.name (Gitlab.author mr);
                         Gitlab.username := Gitlab.username (Gitlab.author mr) |};
     MRDict.source_branch := Gitlab.source_branch mr;
     MRDict.target_branch := Gitlab.target_branch mr;
     MRDict.web_url := Gitlab.web_url mr;
     MRDict.changes := None |}.

(** [self.gl.projects.get(identifier)] *)
Definition projects_get (self : GitLabPRManager) (identifier : string)
    : M Gitlab.Project :=
  remote (ProjectsGet identifier) (Gitlab.projects_get (gl self) identifier).

(** The project resolution of [get_merge_requests] (lines 49-54): the
    inner [try] with its [except gitlab.exceptions.GitlabGetError]. *)
Definition resolve_project (self : GitLabPRManager) (project_id : string)
    : M Gitlab.Project :=
  try_except (projects_get self project_id)
    (λ e, match e with
          | GitlabGetError _ =>
              Some (projects_get self (PyStr.replace "/" "%2F" project_id))
          | _ => None
          end).

(** [get_merge_requests(self, project_id, state)] (lines 35-91). *)
Definition get_merge_requests (self : GitLabPRManager) (project_id : string)
    (state : string) : M (list MRDict.t) :=
  try_except
    (project ← resolve_project self project_id;
     merge_requests ←
       remote (MergeRequestsList state) (Gitlab.mergerequests_list project state);
     mret (mr_info <$> merge_requests))
    (λ e, Some
       match e with
       | GitlabAuthenticationError _ =>
           raise (PyException
                    "Authentication failed. Please check your GitLab token.")
       | GitlabGetError _ =>
           raise (PyException
                    ("Failed to retrieve merge requests for project "
                       +:+ project_id +:+ ". Error: " +:+ str e))
       | _ =>
           raise (PyException ("An unexpected error occurred: " +:+ str e))
       end).

(** ** pr_analyzer.py: class PRAnalyzer *)

(** The [Confluence] client object, holding what it was constructed with. *)
Record Confluence : Type := {
  url : string;
  username : string;
  password : string
}.

Record PRAnalyzer : Type := {
  gitlab_manager : GitLabPRManager;
  confluence : option Confluence;
  confluence_space : string
}.

(** Truth value of an [os.getenv] result: unset and empty are false. *)
Definition env_truthy (v : option string) : bool :=
  match v with
  | Some (String _ _) => true
  | _ => false
  end.

(** [__init__], lines 53-62: the wiki client exists only when url,
    username and token are all provided. *)
Definition init_confluence (confluence_url confluence_username
    confluence_token : option string) : option Confluence :=
  if forallb env_truthy
       [confluence_url; confluence_username; confluence_token]
  then Some {| url := default "" confluence_url;
               username := default "" confluence_username;
               password := default "" confluence_token |}
  else None.

(** [except Exception as e: ...log...; raise] *)
Definition log_and_reraise {A} (e : exn) : option (M A) := Some (raise e).

(** The dict returned for one merge request (lines 86-101);
    [mr.changes()] is called only for an opened one. *)
Definition fetch_one (self : PRAnalyzer) (project_id : string) (mr_id : Z)
    : M MRDetails :=
  project ← projects_get (gitlab_manager self) project_id;
  mr ← remote (MergeRequestsGet mr_id) (Gitlab.mergerequests_get project mr_id);
  changes ←
    (if String.eqb (Gitlab.state mr) "opened"
     then remote (Changes (Gitlab.iid mr)) (Gitlab.changes mr)
     else mret []);
  mret (Single
    {| MRDict.id := Gitlab.iid mr;
       MRDict.title := Gitlab.title mr;
       MRDict.description := Gitlab.description mr;
       MRDict.state := Gitlab.state mr;
       MRDict.created_at := Gitlab.created_at mr;
       MRDict.updated_at := Gitlab.updated_at mr;
       MRDict.author :=
         {| Gitlab.name := Gitlab.name (Gitlab.author mr);
            Gitlab.username := Gitlab.username (Gitlab.author mr) |};
       MRDict.source_branch := Gitlab.source_branch mr;
       MRDict.target_branch := Gitlab.target_branch mr;
       MRDict.web_url := Gitlab.web_url mr;
       MRDict.changes := Some changes |}).

(** The [else] branch (lines 103-105): all merge requests, through
    [get_merge_requests] with its default state. *)
Definition fetch_all (self : PRAnalyzer) (project_id : string) : M MRDetails :=
  l ← get_merge_requests (gitlab_manager self) project_id "opened";
  mret (Many l).

(** [fetch_mr_details(project_id, mr_id=None)] (lines 77-109).  The test
    [if mr_id:] is false for [None] and for [0]. *)
Definition fetch_mr_details (self : PRAnalyzer) (project_id : string)
    (mr_id : option Z) : M MRDetails :=
  try_except
    (match mr_id with
     | Some n =>
         if (n =? 0)%Z then fetch_all self project_id
         else fetch_one self project_id n
     | None => fetch_all self project_id
     end)
    log_and_reraise.

(** The dict appended to [analysis['files']] for a change (lines 128-129
    and 135-140). *)
Definition entry_of (change : Gitlab.Change) : FileEntry :=
  let file_path := Gitlab.new_path change in
  let file_type := file_type file_path in
  {| path := file_path;
     type := file_type;
     additions := PyStr.count "+" (Gitlab.diff change);
     deletions := PyStr.count "-" (Gitlab.diff change) |}.

(** One round of the loop of [analyze_code_changes] (lines 127-140). *)
Definition analyze_change (analysis : AnalysisReport) (change : Gitlab.Change)
    : AnalysisReport :=
  let file_path := Gitlab.new_path change in
  let file_type := file_type file_path in
  {| total_files_changed := total_files_changed analysis;
     file_types :=
       <[file_type := default 0 (file_types analysis !! file_type) + 1]>
         (file_types analysis);
     total_additions :=
       total_additions analysis + PyStr.count "+" (Gitlab.diff change);
     total_deletions :=
       total_deletions analysis + PyStr.count "-" (Gitlab.diff change);
     files := files analysis ++ [entry_of change] |}.

(** The aggregation of [analyze_code_changes] (lines 119-140). *)
Definition analyze (changes : list Gitlab.Change) : AnalysisReport :=
  foldl analyze_change
    {| total_files_changed := length changes;
       file_types := ∅;
       total_additions := 0;
       total_deletions := 0;
       files := [] |}
    changes.

(** [mr_details.get('changes', [])]: a list has no [get]. *)
Definition get_changes (mr_details : MRDetails) : M (list Gitlab.Change) :=
  match mr_details with
  | Single d => mret (default [] (MRDict.changes d))
  | Many _ => raise (AttributeError "'list' object has no attribute 'get'")
  end.

(** [analyze_code_changes(project_id, mr_id)] (lines 112-147). *)
Definition analyze_code_changes (self : PRAnalyzer) (project_id : string)
    (mr_id : Z) : M AnalysisReport :=
  try_except
    (mr_details ← fetch_mr_details self project_id (Some mr_id);
     changes ← get_changes mr_details;
     mret (analyze changes))
    log_and_reraise.

(** [mr_details['title']] and the other subscripts by key: a list takes
    no string index. *)
Definition subscript (mr_details : MRDetails) : M MRDict.t :=
  match mr_details with
  | Single d => mret d
  | Many _ =>
      raise (TypeError "list indices must be integers or slices, not str")
  end.

(** [store_in_confluence(project_id, mr_id=None, analysis=None)]
    (lines 150-256). *)
Definition store_in_confluence (self : PRAnalyzer) (project_id : string)
    (mr_id : option Z) (analysis : option AnalysisReport) : M string :=
  match confluence self with
  | None => raise (ValueError "Confluence integration is not configured")
  | Some _ =>
      try_except
        (match mr_id with
         | None =>
             mr_details ← fetch_mr_details self project_id None;
             match mr_details with
             | Many l =>
                 let content := SummaryBody l in
                 let page_title := "MR Summary - " +:+ project_id in
                 parent_id ←
                   get_page_id (confluence_space self) "PR Analysis Reports";
                 page ← create_page (confluence_space self) page_title
                          content parent_id;
                 mret (links_base page +:+ links_webui page)
             | Single _ =>
                 raise (ValueError
                          "Unexpected response format from fetch_mr_details")
             end
         | Some _ =>
             '(mr_details, content) ←
               match analysis with
               | None =>
                   mr_details ← fetch_mr_details self project_id mr_id;
                   d ← subscript mr_details;
                   mret (d, DetailsBody d)
               | Some a =>
                   mr_details ← fetch_mr_details self project_id mr_id;
                   d ← subscript mr_details;
                   mret (d, ReportBody d a)
               end;
             let page_title := "MR Analysis - " +:+ MRDict.title mr_details in
             parent_id ←
               get_page_id (confluence_space self) "PR Analysis Reports";
             page ← create_page (confluence_space self) page_title
                      content parent_id;
             mret (links_base page +:+ links_webui page)
         end)
        log_and_reraise
  end.

(** [sum(file_types.values())] *)
Definition sum_values (m : gmap string nat) : nat :=
  sum_list_with snd (map_to_list m).

(** ** A sample remote state

    Project [group/repo] with the opened merge request 42, changing
    [src/app.py], and the merged merge request 7. *)

Module Sample.

Definition nl : string := String (ascii_of_nat 10) EmptyString.

Definition app_change : Gitlab.Change :=
  {| Gitlab.old_path := "src/app.py";
     Gitlab.new_path := "src/app.py";
     Gitlab.diff := "+line1" +:+ nl +:+ "+line2" +:+ nl +:+ "-oldline" +:+ nl |}.

Definition readme_change : Gitlab.Change :=
  {| Gitlab.old_path := "README.md";
     Gitlab.new_path := "README.md";
     Gitlab.diff := "-# Old" +:+ nl +:+ "+# New" +:+ nl |}.

Definition dev : Gitlab.Author :=
  {| Gitlab.name := "Dev One"; Gitlab.username := "dev1" |}.

Definition mr42 : Gitlab.MergeRequest :=
  {| Gitlab.iid := 42;
     Gitlab.title := "Add app";
     Gitlab.description := "Adds the application entry point";
     Gitlab.state := "opened";
     Gitlab.created_at := "2024-01-01T00:00:00Z";
     Gitlab.updated_at := "2024-01-02T00:00:00Z";
     Gitlab.author := dev;
     Gitlab.source_branch := "feature/app";
     Gitlab.target_branch := "main";
     Gitlab.web_url := "https://gitlab.com/group/repo/-/merge_requests/42";
     Gitlab.changes := Ok [app_change] |}.

Definition mr7 : Gitlab.MergeRequest :=
  {| Gitlab.iid := 7;
     Gitlab.title := "Update readme";
     Gitlab.description := "";
     Gitlab.state := "merged";
     Gitlab.created_at := "2023-12-01T00:00:00Z";
     Gitlab.updated_at := "2023-12-02T00:00:00Z";
     Gitlab.author := dev;
     Gitlab.source_branch := "docs";
     Gitlab.target_branch := "main";
     Gitlab.web_url := "https://gitlab.com/group/repo/-/merge_requests/7";
     Gitlab.changes := Ok [readme_change] |}.

(** The dict of merge request 42 with its changes. *)
Definition details42 : MRDict.t :=
  {| MRDict.id := 42;
     MRDict.title := "Add app";
     MRDict.description := "Adds the application entry point";
     MRDict.state := "opened";
     MRDict.created_at := "2024-01-01T00:00:00Z";
     MRDict.updated_at := "2024-01-02T00:00:00Z";
     MRDict.author := dev;
     MRDict.source_branch := "feature/app";
     MRDict.target_branch := "main";
     MRDict.web_url := "https://gitlab.com/group/repo/-/merge_requests/42";
     MRDict.changes := Some [app_change] |}.

Definition not_found : exn := GitlabGetError "404: 404 Not Found".

Definition repo : Gitlab.Project :=
  {| Gitlab.project_name := "repo";
     Gitlab.mergerequests_list := λ state,
       Ok (filter (λ mr, Gitlab.state mr = state) [mr42; mr7]);
     Gitlab.mergerequests_get := λ n,
       if (n =? 42)%Z then Ok mr42
       else if (n =? 7)%Z then Ok mr7
       else Raise not_found |}.

(** A platform that knows the project under the identifier [known] only. *)
Definition client (known : string) : Gitlab.Client :=
  {| Gitlab.projects_get := λ identifier,
       if String.eqb identifier known then Ok repo else Raise not_found |}.

Definition parent_page : Page :=
  {| page_id := 1; page_space := "ENG"; page_title := "PR Analysis Reports";
     page_body := SummaryBody []; page_parent := None |}.

Definition wiki_with (pages : list Page) : Wiki :=
  {| wiki_base := "https://wiki.example.com";
     wiki_webui := λ n, "/pages/viewpage.action?pageId=" +:+ pretty n;
     wiki_pages := pages;
     wiki_fault := λ _, None |}.

Definition world (pages : list Page) : World :=
  {| trace := []; wiki := wiki_with pages |}.

Definition wiki_client : Confluence :=
  {| url := "https://wiki.example.com"; username := "bot";
     password := "secret" |}.

Definition analyzer (known : string) (c : option Confluence) : PRAnalyzer :=
  {| gitlab_manager := {| gl := client known |};
     confluence := c;
     confluence_space := "ENG" |}.

End Sample.

(** ** Vocabulary of the statements *)

(** Calls to the hosting platform. *)
Definition is_gitlab_call (c : call) : Prop :=
  match c with
  | ProjectsGet _ | MergeRequestsList _ | MergeRequestsGet _ | Changes _ => True
  | GetPageId _ _ | CreatePage _ _ _ _ => False
  end.

(** Calls made when listing merge requests. *)
Definition is_listing_call (c : call) : Prop :=
  match c with
  | ProjectsGet _ | MergeRequestsList _ => True
  | _ => False
  end.

(** A computation that leaves the wiki alone and makes only calls
    satisfying [P]. *)
Definition only_calls {A} (P : call → Prop) (m : M A) : Prop :=
  ∀ w r w', m w = (r, w') →
    wiki w' = wiki w ∧ ∃ calls, trace w' = trace w ++ calls ∧ Forall P calls.

(** What a change contributes to a report: its path and its diff text. *)
Definition path_and_diff (c : Gitlab.Change) : string * string :=
  (Gitlab.new_path c, Gitlab.diff c).

(** The report with no file. *)
Definition zero_report : AnalysisReport :=
  {| total_files_changed := 0;
     file_types := ∅;
     total_additions := 0;
     total_deletions := 0;
     files := [] |}.

(** A page lying, in the space configured for [self], directly under a page
    of that space titled "PR Analysis Reports". *)
Definition under_reports_page (self : PRAnalyzer) (w : Wiki) (p : Page) : Prop :=
  page_space p = confluence_space self ∧
  ∃ parent, parent ∈ wiki_pages w ∧
            page_space parent = confluence_space self ∧
            page_title parent = "PR Analysis Reports" ∧
            page_parent p = Some (page_id parent).

(** ** Construction of the two classes *)

(** The hosting platform as a constructor of clients sees it:
    [gitlab.Gitlab(url, private_token=token)] is the client handle for that
    url and token, and [gl.auth()] on it completes or raises.  The token is
    an [os.getenv] result, [None] when the variable is unset. *)
Record Hosting : Type := {
  hosting_client : string → option string → Gitlab.Client;
  hosting_auth : string → option string → result unit
}.

(** [GitLabPRManager.__init__(gitlab_url, private_token)]
    (gitlab_pr.py lines 18-33): the handler of
    [GitlabAuthenticationError] logs and re-raises, any other exception
    passes through. *)
Definition GitLabPRManager_init (hosting : Hosting) (gitlab_url : string)
    (private_token : option string) : result GitLabPRManager :=
  match hosting_auth hosting gitlab_url private_token with
  | Ok _ => Ok {| gl := hosting_client hosting gitlab_url private_token |}
  | Raise e => Raise e
  end.

(** [sep.join(l)] *)
Fixpoint join (sep : string) (l : list string) : string :=
  match l with
  | [] => ""
  | [x] => x
  | x :: rest => x +:+ sep +:+ join sep rest
  end.

(** The attributes [PRAnalyzer.__init__] sets on [self] (the tool server
    handle apart). *)
Module Init.
Record t : Type := {
  gitlab_url : string;
  gitlab_token : option string;
  confluence_url : option string;
  confluence_username : option string;
  confluence_token : option string;
  confluence_space : option string;
  gitlab_manager : GitLabPRManager;
  confluence : option Confluence
}.
End Init.

(** [required_vars] (pr_analyzer.py line 31) *)
Definition required_vars : list string := ["GITLAB_TOKEN"; "GITLAB_PROJECT_ID"].

(** [[var for var in required_vars if not os.getenv(var)]] (line 32), the
    environment being a map from names to values. *)
Definition missing_vars (environ : gmap string string) : list string :=
  filter (λ var, env_truthy (environ !! var) = false) required_vars.

(** [PRAnalyzer.__init__] (pr_analyzer.py lines 26-72), on a process
    environment [environ]. *)
Definition PRAnalyzer_init (hosting : Hosting) (environ : gmap string string)
    : result Init.t :=
  match missing_vars environ with
  | _ :: _ =>
      Raise (ValueError ("Missing required environment variables: "
                           +:+ join ", " (missing_vars environ)))
  | [] =>
      let gitlab_url := default "https://gitlab.com" (environ !! "GITLAB_URL") in
      let gitlab_token := environ !! "GITLAB_TOKEN" in
      let confluence_url := environ !! "CONFLUENCE_URL" in
      let confluence_username := environ !! "CONFLUENCE_USERNAME" in
      let confluence_token := environ !! "CONFLUENCE_TOKEN" in
      let confluence_space := environ !! "CONFLUENCE_SPACE" in
      match GitLabPRManager_init hosting gitlab_url gitlab_token with
      | Raise e => Raise e
      | Ok manager =>
          Ok {| Init.gitlab_url := gitlab_url;
                Init.gitlab_token := gitlab_token;
                Init.confluence_url := confluence_url;
                Init.confluence_username := confluence_username;
                Init.confluence_token := confluence_token;
                Init.confluence_space := confluence_space;
                Init.gitlab_manager := manager;
                Init.confluence :=
                  init_confluence confluence_url confluence_username
                    confluence_token |}
      end
  end.

(** ** Further vocabulary *)

(** The world after one more call. *)
Notation "w '+call' c" :=
  {| trace := trace w ++ [c]; wiki := wiki w |}
  (at level 50, left associativity, only parsing).

(** Number of changes whose file-extension category is [t]. *)
Definition files_of_type (t : string) (changes : list Gitlab.Change) : nat :=
  length (filter (λ c, file_type (Gitlab.new_path c) = t) changes).

(** The message [get_merge_requests] gives to an error of class [e]
    (gitlab_pr.py lines 83-91). *)
Definition wrapped_message (project_id : string) (e : exn) : string :=
  match e with
  | GitlabAuthenticationError _ =>
      "Authentication failed. Please check your GitLab token."
  | GitlabGetError m =>
      "Failed to retrieve merge requests for project "
        +:+ project_id +:+ ". Error: " +:+ m
  | _ => "An unexpected error occurred: " +:+ str e
  end.

(** A hosting platform for the sample state: it accepts one token. *)
Definition sample_hosting : Hosting :=
  {| hosting_client := λ _ _, Sample.client "group/repo";
     hosting_auth := λ _ token,
       if bool_decide (token = Some "glpat-1") then Ok tt
       else Raise (GitlabAuthenticationError "401: 401 Unauthorized") |}.

(** The lines that end both publishing paths of [store_in_confluence]
    (pr_analyzer.py lines 176-186 and 242-252): parent lookup, page
    creation, and the url returned. *)
Definition publish_page (self : PRAnalyzer) (page_title : string)
    (content : Body) : M string :=
  parent_id ← get_page_id (confluence_space self) "PR Analysis Reports";
  page ← create_page (confluence_space self) page_title content parent_id;
  mret (links_base page +:+ links_webui page).

(** The page that [publish_page] asks the wiki [w] to create. *)
Definition new_page (self : PRAnalyzer) (w : Wiki) (page_title : string)
    (content : Body) : Page :=
  {| page_id := fresh_id w;
     page_space := confluence_space self;
     page_title := page_title;
     page_body := content;
     page_parent :=
       page_id <$> find_page w (confluence_space self) "PR Analysis Reports" |}.

(** The body of the page for one merge request (lines 191-238). *)
Definition mr_body (d : MRDict.t) (analysis : option AnalysisReport) : Body :=
  match analysis with
  | None => DetailsBody d
  | Some a => ReportBody d a
  end.

(** Bytes of the form [10xxxxxx], which continue a character of a UTF-8
    text. *)
Definition is_continuation_byte (a : ascii) : bool :=
  match a with
  | Ascii _ _ _ _ _ _ b6 b7 => b7 && negb b6
  end.

(** [len(s)] for a text held as its UTF-8 bytes: one per byte that starts
    a character. *)
Fixpoint code_points (s : string) : nat :=
  match s with
  | EmptyString => 0
  | String a s' => (if is_continuation_byte a then 0 else 1) + code_points s'
  end.

(** * Properties *)

Section PyStrFacts.

Lemma split_nonempty c s : PyStr.split c s ≠ [].
Proof.
  destruct s as [|a s]; simpl; [done|].
  destruct (Ascii.eqb a c); [done|].
  destruct (PyStr.split c s); done.
Qed.

Lemma count_occurrences c s : PyStr.count c s = PyStr.occurrences c s.
Proof.
  unfold PyStr.occurrences.
  induction s as [|a s IH]; simpl; [done|].
  rewrite filter_cons. destruct (Ascii.eqb_spec a c) as [->|Hne].
  - rewrite decide_True by done. simpl. by rewrite IH.
  - rewrite decide_False by done. by rewrite IH.
Qed.

(** Without a separator the split is the string itself. *)
Lemma split_no_sep c s : PyStr.contains c s = false → PyStr.split c s = [s].
Proof.
  induction s as [|a s IH]; simpl; [done|].
  destruct (Ascii.eqb a c); [done|].
  intros Hc. by rewrite (IH Hc).
Qed.

(** With a separator the split has at least two pieces. *)
Lemma split_sep c s :
  PyStr.contains c s = true → ∃ p q r, PyStr.split c s = p :: q :: r.
Proof.
  induction s as [|a s IH]; simpl; [done|].
  destruct (Ascii.eqb a c).
  - intros _. pose proof (split_nonempty c s).
    destruct (PyStr.split c s) as [|q r]; [done|]. by exists "", q, r.
  - intros Hc. destruct (IH Hc) as (p & q & r & ->).
    by exists (String a p), q, r.
Qed.

(** The last piece of a split is what follows the last separator. *)
Lemma split_last_suffix c s :
  PyStr.contains c s = true →
  ∃ stem piece,
    PyStr.last_item (PyStr.split c s) = Some piece ∧
    s = stem +:+ String c piece ∧
    PyStr.contains c piece = false.
Proof.
  unfold PyStr.last_item.
  induction s as [|a s IH]; simpl; [done|].
  destruct (Ascii.eqb_spec a c) as [->|Hne]; intros Hin.
  - destruct (PyStr.contains c s) eqn:Hc.
    + destruct (IH eq_refl) as (stem & piece & Hl & Hs & Hp).
      exists (String c stem), piece. split_and!; [|by rewrite Hs at 1|done].
      rewrite last_cons, Hl. done.
    + exists "", s. by rewrite (split_no_sep _ _ Hc).
  - destruct (IH Hin) as (stem & piece & Hl & Hs & Hp).
    exists (String a stem), piece. split_and!; [|by rewrite Hs at 1|done].
    destruct (split_sep _ _ Hin) as (p & q & r & Hsp).
    by rewrite Hsp in *.
Qed.

End PyStrFacts.

(** C10: when the new file path contains a ['.'], the file-extension
    category is the substring after the last ['.'] of the path: the path is
    some stem, a dot, and the category, and the category itself holds no
    dot.  A path ending in a dot ("file.") gets the empty category, not
    "unknown", and a multi-suffix path ("archive.tar.gz") gets only its final
    suffix ("gz"). *)
Theorem file_type_is_last_suffix :
  (∀ path, PyStr.contains "." path = true →
     ∃ stem, path = stem +:+ "." +:+ file_type path ∧
             PyStr.contains "." (file_type path) = false) ∧
  file_type "file." = "" ∧
  file_type "archive.tar.gz" = "gz".
Proof.
  split_and!; [|reflexivity..].
  intros path Hdot. unfold file_type. rewrite Hdot.
  destruct (split_last_suffix _ _ Hdot) as (stem & piece & -> & Hs & Hp).
  exists stem. simpl. done.
Qed.

Lemma file_type_is_last_suffix_witness :
  PyStr.contains "." "src/app.py" = true ∧
  ∃ stem, "src/app.py" = stem +:+ "." +:+ file_type "src/app.py" ∧
          PyStr.contains "." (file_type "src/app.py") = false.
Proof.
  split; [reflexivity|].
  apply (proj1 file_type_is_last_suffix "src/app.py"). reflexivity.
Defined.

(** ** Running computations *)

Ltac run :=
  repeat (simpl ||
          unfold mbind, mret, M_bind, M_ret, try_except, log_and_reraise,
                 raise, remote, record in *).

Lemma bind_ok {A B} (m : M A) (f : A → M B) w b w' :
  (m ≫= f) w = (Ok b, w') ↔ ∃ a w1, m w = (Ok a, w1) ∧ f a w1 = (Ok b, w').
Proof.
  unfold mbind, M_bind. split.
  - destruct (m w) as [[a|e] w1]; [|done]. intros H. by exists a, w1.
  - intros (a & w1 & -> & H). done.
Qed.

Lemma try_reraise {A} (m : M A) w : try_except m log_and_reraise w = m w.
Proof. run. by destruct (m w) as [[a|e] w1]. Qed.

Section Aggregation.

Implicit Types (changes : list Gitlab.Change) (acc : AnalysisReport).

Lemma sum_values_empty : sum_values ∅ = 0.
Proof. unfold sum_values. by rewrite map_to_list_empty. Qed.

Lemma sum_values_insert_fresh (m : gmap string nat) k v :
  m !! k = None → sum_values (<[k:=v]> m) = v + sum_values m.
Proof.
  intros Hk. unfold sum_values. by rewrite map_to_list_insert.
Qed.

(** Counting one more occurrence of a key adds one to the sum. *)
Lemma sum_values_bump (m : gmap string nat) k :
  sum_values (<[k := default 0 (m !! k) + 1]> m) = S (sum_values m).
Proof.
  destruct (m !! k) as [v|] eqn:Hk; simpl.
  - rewrite <- (insert_delete_id m k v Hk) at 2.
    rewrite <- insert_delete_eq.
    rewrite !sum_values_insert_fresh by apply lookup_delete_eq. lia.
  - by rewrite sum_values_insert_fresh.
Qed.

Lemma foldl_analyze_files changes acc :
  files (foldl analyze_change acc changes)
  = files acc ++ (entry_of <$> changes).
Proof.
  revert acc. induction changes as [|c cs IH]; intros acc; simpl.
  - by rewrite app_nil_r.
  - rewrite IH. simpl. by rewrite <- app_assoc.
Qed.

Lemma foldl_analyze_additions changes acc :
  total_additions (foldl analyze_change acc changes)
  = total_additions acc + sum_list_with additions (entry_of <$> changes).
Proof.
  revert acc. induction changes as [|c cs IH]; intros acc; simpl;
    [lia|]. rewrite IH. cbn. by rewrite <- Nat.add_assoc.
Qed.

Lemma foldl_analyze_deletions changes acc :
  total_deletions (foldl analyze_change acc changes)
  = total_deletions acc + sum_list_with deletions (entry_of <$> changes).
Proof.
  revert acc. induction changes as [|c cs IH]; intros acc; simpl;
    [lia|]. rewrite IH. cbn. by rewrite <- Nat.add_assoc.
Qed.

Lemma foldl_analyze_total changes acc :
  total_files_changed (foldl analyze_change acc changes)
  = total_files_changed acc.
Proof.
  revert acc. induction changes as [|c cs IH]; intros acc; simpl;
    [done|]. by rewrite IH.
Qed.

Lemma foldl_analyze_file_types changes acc :
  sum_values (file_types (foldl analyze_change acc changes))
  = sum_values (file_types acc) + length changes.
Proof.
  revert acc. induction changes as [|c cs IH]; intros acc; simpl;
    [lia|]. rewrite IH. cbn. rewrite sum_values_bump. lia.
Qed.

(** The invariants of a report, on the aggregation itself. *)
Lemma analyze_invariants changes :
  let r := analyze changes in
  total_additions r = sum_list_with additions (files r) ∧
  total_deletions r = sum_list_with deletions (files r) ∧
  sum_values (file_types r) = total_files_changed r ∧
  total_files_changed r = length (files r).
Proof.
  unfold analyze. cbv zeta.
  rewrite foldl_analyze_files, foldl_analyze_additions,
    foldl_analyze_deletions, foldl_analyze_total, foldl_analyze_file_types.
  simpl. rewrite sum_values_empty, length_fmap. done.
Qed.

(** [analyze_code_changes] is [fetch_mr_details] followed by the
    aggregation of the fetched changes. *)
Lemma analyze_code_changes_unfold self project_id mr_id w :
  analyze_code_changes self project_id mr_id w =
  match fetch_mr_details self project_id (Some mr_id) w with
  | (Ok (Single d), w') => (Ok (analyze (default [] (MRDict.changes d))), w')
  | (Ok (Many _), w') =>
      (Raise (AttributeError "'list' object has no attribute 'get'"), w')
  | (Raise e, w') => (Raise e, w')
  end.
Proof.
  unfold analyze_code_changes. rewrite try_reraise. run.
  by destruct (fetch_mr_details self project_id (Some mr_id) w)
    as [[[d|l]|e] w1].
Qed.

Lemma analyze_code_changes_returns self project_id mr_id w r w' :
  analyze_code_changes self project_id mr_id w = (Ok r, w') →
  ∃ d, fetch_mr_details self project_id (Some mr_id) w = (Ok (Single d), w')
       ∧ r = analyze (default [] (MRDict.changes d)).
Proof.
  rewrite analyze_code_changes_unfold.
  destruct (fetch_mr_details self project_id (Some mr_id) w)
    as [[[d|l]|e] w1]; intros H; inversion H; subst.
  by exists d.
Qed.

(** The aggregation reads nothing of a change but its path and diff. *)
Lemma analyze_change_ext acc c1 c2 :
  path_and_diff c1 = path_and_diff c2 →
  analyze_change acc c1 = analyze_change acc c2.
Proof.
  unfold path_and_diff, analyze_change, entry_of.
  intros [= -> ->]. done.
Qed.

Lemma analyze_ext changes1 changes2 :
  path_and_diff <$> changes1 = path_and_diff <$> changes2 →
  analyze changes1 = analyze changes2.
Proof.
  intros Heq. unfold analyze.
  assert (length changes1 = length changes2) as ->.
  { by rewrite <- (length_fmap path_and_diff changes1), Heq, length_fmap. }
  generalize ({| total_files_changed := length changes2; file_types := ∅;
                 total_additions := 0; total_deletions := 0;
                 files := [] |}).
  revert changes2 Heq.
  induction changes1 as [|c1 cs1 IH]; intros [|c2 cs2] Heq acc;
    rewrite ?fmap_cons, ?fmap_nil in Heq; try discriminate; [done|].
  injection Heq as Hpath Hdiff Hcs. simpl.
  rewrite (analyze_change_ext acc c1 c2); [by apply IH|].
  unfold path_and_diff. by rewrite Hpath, Hdiff.
Qed.

Lemma files_analyze changes : files (analyze changes) = entry_of <$> changes.
Proof. unfold analyze. by rewrite foldl_analyze_files. Qed.

End Aggregation.

(** ** Which calls a computation makes *)

Section Calls.

Context {P : call → Prop}.

Lemma only_calls_ret {A} (a : A) : only_calls P (mret a).
Proof.
  intros w r w' [= <- <-]. split; [done|]. exists []. by rewrite app_nil_r.
Qed.

Lemma only_calls_raise {A} e : only_calls P (raise (A := A) e).
Proof.
  intros w r w' [= <- <-]. split; [done|]. exists []. by rewrite app_nil_r.
Qed.

Lemma only_calls_remote {A} c (r : result A) : P c → only_calls P (remote c r).
Proof.
  intros Hc w r' w'. run. destruct r; intros [= <- <-]; simpl;
    (split; [done|]); exists [c]; by repeat constructor.
Qed.

Lemma only_calls_bind {A B} (m : M A) (f : A → M B) :
  only_calls P m → (∀ a, only_calls P (f a)) → only_calls P (m ≫= f).
Proof.
  intros Hm Hf w r w'. unfold mbind, M_bind.
  destruct (m w) as [[a|e] w1] eqn:Hmw.
  - destruct (Hm _ _ _ Hmw) as (Hw1 & calls1 & Ht1 & Hc1).
    intros (Hw2 & calls2 & Ht2 & Hc2)%Hf. split; [congruence|].
    exists (calls1 ++ calls2). rewrite Ht2, Ht1, app_assoc.
    split; [done|]. by apply Forall_app.
  - intros [= <- <-]. by apply (Hm _ _ _ Hmw).
Qed.

Lemma only_calls_try {A} (m : M A) h :
  only_calls P m → (∀ e k, h e = Some k → only_calls P k) →
  only_calls P (try_except m h).
Proof.
  intros Hm Hh w r w'. unfold try_except.
  destruct (m w) as [[a|e] w1] eqn:Hmw.
  - intros [= <- <-]. by apply (Hm _ _ _ Hmw).
  - destruct (Hm _ _ _ Hmw) as (Hw1 & calls1 & Ht1 & Hc1).
    destruct (h e) as [k|] eqn:Hk.
    + intros (Hw2 & calls2 & Ht2 & Hc2)%(Hh _ _ Hk). split; [congruence|].
      exists (calls1 ++ calls2). rewrite Ht2, Ht1, app_assoc.
      split; [done|]. by apply Forall_app.
    + intros [= <- <-]. eauto.
Qed.

Lemma only_calls_reraise {A} (m : M A) :
  only_calls P m → only_calls P (try_except m log_and_reraise).
Proof.
  intros Hm. apply only_calls_try; [done|].
  intros e k [= <-]. apply only_calls_raise.
Qed.

End Calls.

Lemma only_calls_weaken {A} (P Q : call → Prop) (m : M A) :
  (∀ c, P c → Q c) → only_calls P m → only_calls Q m.
Proof.
  intros HPQ Hm w r w' (Hw & calls & Ht & Hc)%Hm. split; [done|].
  exists calls. split; [done|]. by eapply Forall_impl.
Qed.

Create HintDb calls.
#[local] Hint Resolve only_calls_ret only_calls_raise only_calls_remote
  only_calls_bind only_calls_try only_calls_reraise : calls.
#[local] Hint Extern 1 (is_listing_call _) => exact I : calls.
#[local] Hint Extern 1 (is_gitlab_call _) => exact I : calls.

Lemma projects_get_listing self identifier :
  only_calls is_listing_call (projects_get self identifier).
Proof. unfold projects_get. auto with calls. Qed.

Lemma resolve_project_listing self project_id :
  only_calls is_listing_call (resolve_project self project_id).
Proof.
  unfold resolve_project. apply only_calls_try.
  - apply projects_get_listing.
  - intros [] k [= <-]. apply projects_get_listing.
Qed.

Lemma get_merge_requests_listing self project_id state :
  only_calls is_listing_call (get_merge_requests self project_id state).
Proof.
  unfold get_merge_requests. apply only_calls_try.
  - apply only_calls_bind; [apply resolve_project_listing|].
    intros project. auto with calls.
  - intros e k [= <-]. destruct e; apply only_calls_raise.
Qed.

Lemma fetch_all_listing self project_id :
  only_calls is_listing_call (fetch_all self project_id).
Proof.
  unfold fetch_all. apply only_calls_bind;
    [apply get_merge_requests_listing|auto with calls].
Qed.

Lemma listing_is_gitlab c : is_listing_call c → is_gitlab_call c.
Proof. by destruct c. Qed.

Lemma fetch_mr_details_gitlab self project_id mr_id :
  only_calls is_gitlab_call (fetch_mr_details self project_id mr_id).
Proof.
  assert (only_calls is_gitlab_call (fetch_all self project_id)) as Hall.
  { eapply only_calls_weaken;
      [apply listing_is_gitlab|apply fetch_all_listing]. }
  unfold fetch_mr_details. apply only_calls_reraise.
  destruct mr_id as [n|]; [|done]. destruct (n =? 0)%Z; [done|].
  unfold fetch_one, projects_get.
  repeat (apply only_calls_bind; [auto with calls|intros ?]).
  - destruct (String.eqb _ _); auto with calls.
  - auto with calls.
Qed.

(** Every failure of [get_merge_requests] is a plain [Exception]. *)
Lemma get_merge_requests_raises self project_id state w e w' :
  get_merge_requests self project_id state w = (Raise e, w') →
  ∃ msg, e = PyException msg.
Proof.
  unfold get_merge_requests, try_except.
  destruct (mbind (M := M) _ _ w) as [[l|e0] w1]; [done|].
  destruct e0; unfold raise; intros [= <- <-]; eauto.
Qed.



(** C1: every report returned by [analyze_code_changes] has
    [total_additions] equal to the sum of the per-file additions of its
    [files], [total_deletions] equal to the sum of the per-file deletions,
    and the values of [file_types] summing to [total_files_changed], which is
    the length of [files]. *)
Theorem analysis_report_invariants self project_id mr_id w r w' :
  analyze_code_changes self project_id mr_id w = (Ok r, w') →
  total_additions r = sum_list_with additions (files r) ∧
  total_deletions r = sum_list_with deletions (files r) ∧
  sum_values (file_types r) = total_files_changed r ∧
  total_files_changed r = length (files r).
Proof.
  intros (d & _ & ->)%analyze_code_changes_returns.
  apply analyze_invariants.
Qed.

Lemma analysis_report_invariants_witness :
  let r := analyze [Sample.app_change] in
  total_additions r = sum_list_with additions (files r) ∧
  total_deletions r = sum_list_with deletions (files r) ∧
  sum_values (file_types r) = total_files_changed r ∧
  total_files_changed r = length (files r).
Proof.
  eapply (analysis_report_invariants
            (Sample.analyzer "group/repo" None) "group/repo" 42
            (Sample.world [])).
  vm_compute. reflexivity.
Defined.

(** C2: whenever [fetch_mr_details] hands a dict to
    [analyze_code_changes], the report is returned, and its per-file entry
    for each change record holds as additions the number of ['+'] characters
    anywhere in the raw diff text and as deletions the number of ['-']
    characters anywhere in it.  For the opened merge request 42 of
    [group/repo] with the single file [src/app.py] and the diff of two added
    lines and one removed line, the report is the one of the scenario. *)
Theorem additions_deletions_count_characters :
  (∀ self project_id mr_id w d w',
     fetch_mr_details self project_id (Some mr_id) w = (Ok (Single d), w') →
     ∃ r, analyze_code_changes self project_id mr_id w = (Ok r, w') ∧
          files r =
            (λ c, {| path := Gitlab.new_path c;
                     type := file_type (Gitlab.new_path c);
                     additions := PyStr.occurrences "+" (Gitlab.diff c);
                     deletions := PyStr.occurrences "-" (Gitlab.diff c) |})
              <$> default [] (MRDict.changes d)) ∧
  Gitlab.diff Sample.app_change
    = "+line1" +:+ Sample.nl +:+ "+line2" +:+ Sample.nl +:+ "-oldline" +:+ Sample.nl ∧
  (analyze_code_changes (Sample.analyzer "group/repo" None) "group/repo" 42
     (Sample.world [])).1
  = Ok {| total_files_changed := 1;
          file_types := {[ "py" := 1 ]};
          total_additions := 2;
          total_deletions := 1;
          files := [{| path := "src/app.py"; type := "py";
                       additions := 2; deletions := 1 |}] |}.
Proof.
  split_and!; [|reflexivity|vm_compute; reflexivity].
  intros self project_id mr_id w d w' Hfetch.
  eexists. rewrite analyze_code_changes_unfold, Hfetch. split; [done|].
  rewrite files_analyze. apply list_fmap_ext. intros _ c _.
  unfold entry_of. by rewrite !count_occurrences.
Qed.

Lemma additions_deletions_count_characters_witness :
  ∃ r, analyze_code_changes (Sample.analyzer "group/repo" None) "group/repo"
         42 (Sample.world [])
       = (Ok r, {| trace := [ProjectsGet "group/repo"; MergeRequestsGet 42;
                             Changes 42];
                   wiki := Sample.wiki_with [] |}) ∧
       files r =
         (λ c, {| path := Gitlab.new_path c;
                  type := file_type (Gitlab.new_path c);
                  additions := PyStr.occurrences "+" (Gitlab.diff c);
                  deletions := PyStr.occurrences "-" (Gitlab.diff c) |})
           <$> default [] (MRDict.changes Sample.details42).
Proof.
  apply (proj1 additions_deletions_count_characters
           (Sample.analyzer "group/repo" None) "group/repo" 42%Z
           (Sample.world []) Sample.details42).
  vm_compute. reflexivity.
Defined.

(** C8: [analyze_code_changes] is a function of what was fetched.  Two
    runs whose fetches end alike end alike; and two runs, on whatever
    analyzers, projects, ids and worlds, whose fetched dicts carry change
    lists with the same paths and diff texts both return, and return the same
    report: nothing else (no other field of the merge request or of a change,
    no clock, no random source) enters the aggregation. *)
Theorem analyze_code_changes_deterministic :
  (∀ self1 self2 project1 project2 id1 id2 w1 w2,
     (fetch_mr_details self1 project1 (Some id1) w1).1
       = (fetch_mr_details self2 project2 (Some id2) w2).1 →
     (analyze_code_changes self1 project1 id1 w1).1
       = (analyze_code_changes self2 project2 id2 w2).1) ∧
  (∀ self1 self2 project1 project2 id1 id2 w1 w2 d1 d2 w1' w2',
     fetch_mr_details self1 project1 (Some id1) w1 = (Ok (Single d1), w1') →
     fetch_mr_details self2 project2 (Some id2) w2 = (Ok (Single d2), w2') →
     path_and_diff <$> default [] (MRDict.changes d1)
       = path_and_diff <$> default [] (MRDict.changes d2) →
     ∃ r, analyze_code_changes self1 project1 id1 w1 = (Ok r, w1') ∧
          analyze_code_changes self2 project2 id2 w2 = (Ok r, w2')).
Proof.
  split.
  - intros self1 self2 project1 project2 id1 id2 w1 w2.
    rewrite !analyze_code_changes_unfold.
    destruct (fetch_mr_details self1 project1 (Some id1) w1)
      as [[[d1|l1]|e1] w1'];
    destruct (fetch_mr_details self2 project2 (Some id2) w2)
      as [[[d2|l2]|e2] w2']; simpl; intros [=]; by subst.
  - intros self1 self2 project1 project2 id1 id2 w1 w2 d1 d2 w1' w2'
      Hf1 Hf2 Hsame.
    exists (analyze (default [] (MRDict.changes d1))).
    rewrite !analyze_code_changes_unfold, Hf1, Hf2.
    by rewrite (analyze_ext _ _ Hsame).
Qed.

Lemma analyze_code_changes_deterministic_witness :
  (analyze_code_changes (Sample.analyzer "group/repo" None) "group/repo" 42
     (Sample.world [])).1
  = (analyze_code_changes
       (Sample.analyzer "group/repo" (Some Sample.wiki_client)) "group/repo"
       42 (Sample.world [Sample.parent_page])).1.
Proof.
  apply (proj1 analyze_code_changes_deterministic). vm_compute. reflexivity.
Defined.

(** The specific-merge-request path when both lookups complete and the
    merge request is not opened. *)
Lemma fetch_one_not_opened self project_id mr_id w project mr :
  Gitlab.projects_get (gl (gitlab_manager self)) project_id = Ok project →
  Gitlab.mergerequests_get project mr_id = Ok mr →
  Gitlab.state mr ≠ "opened" →
  ∃ d, MRDict.changes d = Some [] ∧
       MRDict.id d = Gitlab.iid mr ∧
       MRDict.state d = Gitlab.state mr ∧
       fetch_one self project_id mr_id w
       = (Ok (Single d),
          {| trace := trace w ++ [ProjectsGet project_id; MergeRequestsGet mr_id];
             wiki := wiki w |}).
Proof.
  intros Hproject Hmr Hstate%String.eqb_neq.
  unfold fetch_one, projects_get. run.
  rewrite Hproject. run. rewrite Hmr. run. rewrite Hstate. run.
  eexists. split_and!; [| | |by rewrite <- app_assoc]; done.
Qed.

(** C4: for a merge request whose state is not [opened], fetched by its
    (non-zero) id from a project that resolves, [fetch_mr_details] returns a
    dict whose [changes] is the empty list, whatever [mr.changes()] would
    give (it is not called), and [analyze_code_changes] returns the all-zero
    report instead of raising. *)
Theorem not_opened_has_no_changes self project_id mr_id w project mr :
  mr_id ≠ 0%Z →
  Gitlab.projects_get (gl (gitlab_manager self)) project_id = Ok project →
  Gitlab.mergerequests_get project mr_id = Ok mr →
  Gitlab.state mr ≠ "opened" →
  ∃ d w',
    fetch_mr_details self project_id (Some mr_id) w = (Ok (Single d), w') ∧
    MRDict.changes d = Some [] ∧
    (∀ n, Changes n ∉ trace w → Changes n ∉ trace w') ∧
    analyze_code_changes self project_id mr_id w = (Ok zero_report, w').
Proof.
  intros Hid%Z.eqb_neq Hproject Hmr Hstate.
  destruct (fetch_one_not_opened self project_id mr_id w project mr)
    as (d & Hchanges & _ & _ & Hone); [done..|].
  assert (fetch_mr_details self project_id (Some mr_id) w
          = (Ok (Single d),
             {| trace := trace w ++ [ProjectsGet project_id;
                                     MergeRequestsGet mr_id];
                wiki := wiki w |})) as Hfetch.
  { unfold fetch_mr_details. by rewrite try_reraise, Hid. }
  eexists d, _. split_and!; [exact Hfetch|done| |].
  - intros n Hn. simpl. rewrite !elem_of_app, !elem_of_cons, elem_of_nil.
    intros [?|[?|[?|[]]]]; done.
  - by rewrite analyze_code_changes_unfold, Hfetch, Hchanges.
Qed.

Lemma not_opened_has_no_changes_witness :
  ∃ d w',
    fetch_mr_details (Sample.analyzer "group/repo" None) "group/repo"
      (Some 7%Z) (Sample.world []) = (Ok (Single d), w') ∧
    MRDict.changes d = Some [] ∧
    (∀ n, Changes n ∉ trace (Sample.world []) → Changes n ∉ trace w') ∧
    analyze_code_changes (Sample.analyzer "group/repo" None) "group/repo"
      7 (Sample.world []) = (Ok zero_report, w').
Proof.
  apply (not_opened_has_no_changes (Sample.analyzer "group/repo" None)
           "group/repo" 7%Z (Sample.world []) Sample.repo Sample.mr7).
  - discriminate.
  - reflexivity.
  - reflexivity.
  - discriminate.
Defined.

(** ** Project resolution *)

Lemma replace_no_separator s : PyStr.contains "/" (PyStr.replace "/" "%2F" s) = false.
Proof.
  induction s as [|a s IH]; [done|].
  cbn [PyStr.replace]. destruct (Ascii.eqb a "/") eqn:Ha.
  - exact IH.
  - cbn [PyStr.contains]. by rewrite Ha.
Qed.

(** After a not-found direct lookup, resolution is the encoded lookup. *)
Lemma resolve_project_fallback self project_id w m :
  Gitlab.projects_get (gl self) project_id = Raise (GitlabGetError m) →
  resolve_project self project_id w
  = (Gitlab.projects_get (gl self) (PyStr.replace "/" "%2F" project_id),
     {| trace := trace w ++ [ProjectsGet project_id;
                             ProjectsGet (PyStr.replace "/" "%2F" project_id)];
        wiki := wiki w |}).
Proof.
  intros Hdirect. unfold resolve_project, projects_get. run.
  rewrite Hdirect. run. rewrite <- app_assoc. simpl.
  by destruct (Gitlab.projects_get _ (PyStr.replace _ _ _)).
Qed.

(** C5: when the direct lookup of a project identifier fails with the
    platform's not-found error, resolution makes exactly one more lookup, of
    the identifier with every ['/'] replaced by ['%2F'] (which holds no
    separator any more); it yields a project exactly when that encoded lookup
    does; and when the encoded lookup fails too, [get_merge_requests] raises
    its exception, which for a second not-found error is the descriptive one
    naming the original project identifier. *)
Theorem resolve_project_retries_once self project_id w m :
  Gitlab.projects_get (gl self) project_id = Raise (GitlabGetError m) →
  let encoded := PyStr.replace "/" "%2F" project_id in
  let w' := {| trace := trace w ++ [ProjectsGet project_id; ProjectsGet encoded];
               wiki := wiki w |} in
  (resolve_project self project_id w).2 = w' ∧
  PyStr.contains "/" encoded = false ∧
  (∀ project,
     (resolve_project self project_id w).1 = Ok project ↔
     Gitlab.projects_get (gl self) encoded = Ok project) ∧
  (∀ e state,
     Gitlab.projects_get (gl self) encoded = Raise e →
     ∃ msg,
       get_merge_requests self project_id state w = (Raise (PyException msg), w') ∧
       ∀ m', e = GitlabGetError m' →
             msg = "Failed to retrieve merge requests for project "
                     +:+ project_id +:+ ". Error: " +:+ m').
Proof.
  intros Hdirect encoded w'.
  pose proof (resolve_project_fallback self project_id w m Hdirect) as Hres.
  fold encoded in Hres. fold w' in Hres.
  split_and!.
  - by rewrite Hres.
  - apply replace_no_separator.
  - intros project. by rewrite Hres.
  - intros e state Henc. rewrite Henc in Hres.
    unfold get_merge_requests. run. rewrite Hres.
    destruct e; eexists; (split; [reflexivity|]); intros m' [=]; by subst.
Qed.

Lemma resolve_project_retries_once_witness :
  let self := {| gl := Sample.client "group%2Frepo" |} in
  let w' := {| trace := [ProjectsGet "group/repo"; ProjectsGet "group%2Frepo"];
               wiki := Sample.wiki_with [] |} in
  (resolve_project self "group/repo" (Sample.world [])).2 = w' ∧
  PyStr.contains "/" "group%2Frepo" = false ∧
  (∀ project,
     (resolve_project self "group/repo" (Sample.world [])).1 = Ok project ↔
     Gitlab.projects_get (gl self) "group%2Frepo" = Ok project) ∧
  (∀ e state,
     Gitlab.projects_get (gl self) "group%2Frepo" = Raise e →
     ∃ msg,
       get_merge_requests self "group/repo" state (Sample.world [])
         = (Raise (PyException msg), w') ∧
       ∀ m', e = GitlabGetError m' →
             msg = "Failed to retrieve merge requests for project "
                     +:+ "group/repo" +:+ ". Error: " +:+ m').
Proof.
  apply (resolve_project_retries_once {| gl := Sample.client "group%2Frepo" |}
           "group/repo" (Sample.world []) "404: 404 Not Found").
  reflexivity.
Defined.

(** ** Publishing *)

(** Without all three credentials [__init__] leaves the wiki client unset. *)
Lemma init_confluence_missing confluence_url confluence_username confluence_token :
  forallb env_truthy [confluence_url; confluence_username; confluence_token]
    = false →
  init_confluence confluence_url confluence_username confluence_token = None.
Proof. unfold init_confluence. by intros ->. Qed.

(** C6: with the wiki client not configured, [store_in_confluence]
    raises its configuration error ([ValueError]) at once, whatever its
    arguments: the world is left as it was, so no remote call has been made
    and the wiki has no new page. *)
Theorem store_in_confluence_unconfigured self project_id mr_id analysis w :
  confluence self = None →
  store_in_confluence self project_id mr_id analysis w
  = (Raise (ValueError "Confluence integration is not configured"), w).
Proof. unfold store_in_confluence. by intros ->. Qed.

Lemma store_in_confluence_unconfigured_witness :
  let self :=
    {| gitlab_manager := {| gl := Sample.client "group/repo" |};
       confluence := init_confluence (Some "https://wiki.example.com") None None;
       confluence_space := "ENG" |} in
  store_in_confluence self "group/repo" None None
    (Sample.world [Sample.parent_page])
  = (Raise (ValueError "Confluence integration is not configured"),
     Sample.world [Sample.parent_page]).
Proof.
  apply store_in_confluence_unconfigured.
  apply init_confluence_missing. reflexivity.
Defined.

Lemma wiki_call_ok {A} c (answer : Wiki → A * Wiki) w a w' :
  wiki_call c answer w = (Ok a, w') →
  answer (wiki w) = (a, wiki w') ∧ trace w' = trace w ++ [c].
Proof.
  unfold wiki_call. destruct (wiki_fault (wiki w) c); [done|].
  destruct (answer (wiki w)) as [a0 wk]. by intros [= <- <-].
Qed.

(** The two wiki calls that end every publishing path. *)
Lemma publish_ok space title body w url w' :
  (parent_id ← get_page_id space "PR Analysis Reports";
   page ← create_page space title body parent_id;
   mret (links_base page +:+ links_webui page)) w = (Ok url, w') →
  let parent_id := page_id <$> find_page (wiki w) space "PR Analysis Reports" in
  trace w' = trace w ++ [GetPageId space "PR Analysis Reports";
                         CreatePage space title body parent_id] ∧
  wiki w' = add_page (wiki w)
              {| page_id := fresh_id (wiki w); page_space := space;
                 page_title := title; page_body := body;
                 page_parent := parent_id |}.
Proof.
  intros (parent & w1 & Hget & Hrest)%bind_ok.
  apply bind_ok in Hrest as (page & w2 & Hcreate & [= <- <-]).
  apply wiki_call_ok in Hget as [[= <- Hw1] Ht1].
  apply wiki_call_ok in Hcreate as [[= _ Hw2] Ht2].
  rewrite <- Hw1 in Hw2. cbv zeta. rewrite Ht2, Ht1, <- app_assoc.
  by rewrite <- Hw2.
Qed.

Lemma find_page_spec w space title p :
  find_page w space title = Some p →
  p ∈ wiki_pages w ∧ page_space p = space ∧ page_title p = title.
Proof.
  unfold find_page. destruct (list_find _ _) as [[i q]|] eqn:Hfind; [|done].
  intros [= <-]. apply list_find_Some in Hfind as (Hi & [Hs Ht] & _).
  split; [|done]. by eapply list_elem_of_lookup_2.
Qed.

(** A page created with the looked-up parent lies under the reports page
    as soon as the lookup found one. *)
Lemma created_under_reports self w title body :
  let space := confluence_space self in
  let parent_id := page_id <$> find_page w space "PR Analysis Reports" in
  let page := {| page_id := fresh_id w; page_space := space;
                 page_title := title; page_body := body;
                 page_parent := parent_id |} in
  is_Some parent_id → under_reports_page self (add_page w page) page.
Proof.
  intros space parent_id page [i Hi]. subst parent_id.
  destruct (find_page w space "PR Analysis Reports") as [parent|] eqn:Hfind;
    [|done].
  apply find_page_spec in Hfind as (Hin & Hs & Ht).
  split; [done|]. exists parent. split_and!; [|done..].
  simpl. apply elem_of_app. by left.
Qed.

Lemma subscript_ok mr_details w d w' :
  subscript mr_details w = (Ok d, w') → mr_details = Single d ∧ w' = w.
Proof. destruct mr_details; intros [=]; by subst. Qed.

(** C7 as stated fails: in a space that has no page titled
    "PR Analysis Reports", [store_in_confluence] still creates its page, with
    no parent, so not under a page of that title. *)
Lemma store_in_confluence_without_parent_page :
  let self := Sample.analyzer "group/repo" (Some Sample.wiki_client) in
  ∃ url w' p,
    store_in_confluence self "group/repo" None None (Sample.world [])
      = (Ok url, w') ∧
    wiki_pages (wiki w') = [p] ∧
    page_title p = "MR Summary - group/repo" ∧
    page_parent p = None ∧
    ¬ under_reports_page self (wiki w') p.
Proof.
  eexists _, _, _. split_and!; [vm_compute; reflexivity|reflexivity..|].
  intros (_ & parent & _ & _ & _ & Hparent). discriminate Hparent.
Qed.

(** C7, amended: every call of [store_in_confluence] that returns has,
    after its calls to the hosting platform, looked up the page titled
    "PR Analysis Reports" in the configured space and then created exactly
    one page, in that space, whose parent is whatever that lookup found in
    the wiki as it was at the call: the page lies under the page of that
    title if the space has one, and has no parent otherwise.  The page is
    titled "MR Summary - " followed by the project identifier when [mr_id] is
    absent, and "MR Analysis - " followed by the title of the fetched merge
    request when it is present. *)
Theorem store_in_confluence_page self project_id mr_id analysis w url w' :
  store_in_confluence self project_id mr_id analysis w = (Ok url, w') →
  let space := confluence_space self in
  let parent_id := page_id <$> find_page (wiki w) space "PR Analysis Reports" in
  ∃ gitlab_calls title body,
    let page := {| page_id := fresh_id (wiki w); page_space := space;
                   page_title := title; page_body := body;
                   page_parent := parent_id |} in
    Forall is_gitlab_call gitlab_calls ∧
    trace w' = trace w ++ gitlab_calls ++
                 [GetPageId space "PR Analysis Reports";
                  CreatePage space title body parent_id] ∧
    wiki w' = add_page (wiki w) page ∧
    (is_Some parent_id → under_reports_page self (wiki w') page) ∧
    match mr_id with
    | None => title = "MR Summary - " +:+ project_id
    | Some n =>
        ∃ d w1, fetch_mr_details self project_id (Some n) w = (Ok (Single d), w1) ∧
                title = "MR Analysis - " +:+ MRDict.title d
    end.
Proof.
  unfold store_in_confluence. destruct (confluence self); [|done].
  rewrite try_reraise. destruct mr_id as [n|].
  - intros ([d content] & w1 & Hfetch & Hpublish)%bind_ok.
    assert (∃ w0 calls, fetch_mr_details self project_id (Some n) w
                          = (Ok (Single d), w0) ∧
                        w1 = w0 ∧ wiki w0 = wiki w ∧
                        trace w0 = trace w ++ calls ∧
                        Forall is_gitlab_call calls) as
      (w0 & calls & Hdetails & -> & Hwiki & Htrace & Hcalls).
    { destruct analysis as [a|];
        apply bind_ok in Hfetch as (md & w0 & Hdetails & Hrest);
        apply bind_ok in Hrest as (d' & w2 & [-> ->]%subscript_ok & [= <- _ <-]);
        destruct (fetch_mr_details_gitlab _ _ _ _ _ _ Hdetails)
          as (Hwiki & calls & Htrace & Hcalls);
        by exists w0, calls. }
    apply publish_ok in Hpublish as [Ht Hw]. rewrite Hwiki in Ht, Hw.
    exists calls, ("MR Analysis - " +:+ MRDict.title d), content.
    split_and!; [done|by rewrite Ht, Htrace, <- app_assoc|done| |by eauto].
    rewrite Hw. apply created_under_reports.
  - intros (md & w1 & Hfetch & Hrest)%bind_ok.
    destruct (fetch_mr_details_gitlab _ _ _ _ _ _ Hfetch)
      as (Hwiki & calls & Htrace & Hcalls).
    destruct md as [d|l]; [done|].
    apply publish_ok in Hrest as [Ht Hw]. rewrite Hwiki in Ht, Hw.
    exists calls, ("MR Summary - " +:+ project_id), (SummaryBody l).
    split_and!; [done|by rewrite Ht, Htrace, <- app_assoc|done| |done].
    rewrite Hw. apply created_under_reports.
Qed.

Lemma store_in_confluence_page_witness :
  let self := Sample.analyzer "group/repo" (Some Sample.wiki_client) in
  let w := Sample.world [Sample.parent_page] in
  let w' := (store_in_confluence self "group/repo" (Some 42%Z) None w).2 in
  ∃ gitlab_calls title body,
    let page := {| page_id := 2; page_space := "ENG";
                   page_title := title; page_body := body;
                   page_parent := Some 1 |} in
    Forall is_gitlab_call gitlab_calls ∧
    trace w' = trace w ++ gitlab_calls ++
                 [GetPageId "ENG" "PR Analysis Reports";
                  CreatePage "ENG" title body (Some 1)] ∧
    wiki w' = add_page (wiki w) page ∧
    (is_Some (Some 1) → under_reports_page self (wiki w') page) ∧
    ∃ d w1, fetch_mr_details self "group/repo" (Some 42%Z) w
              = (Ok (Single d), w1) ∧
            title = "MR Analysis - " +:+ MRDict.title d.
Proof.
  apply (store_in_confluence_page
           (Sample.analyzer "group/repo" (Some Sample.wiki_client))
           "group/repo" (Some 42%Z) None (Sample.world [Sample.parent_page])
           "https://wiki.example.com/pages/viewpage.action?pageId=2").
  vm_compute. reflexivity.
Defined.

(** * Further properties of the code *)

(** ** [get_merge_requests] *)

Lemma resolve_project_unfold self project_id w :
  resolve_project self project_id w =
  match Gitlab.projects_get (gl self) project_id with
  | Ok project => (Ok project, w +call ProjectsGet project_id)
  | Raise (GitlabGetError _) =>
      (Gitlab.projects_get (gl self) (PyStr.replace "/" "%2F" project_id),
       w +call ProjectsGet project_id
         +call ProjectsGet (PyStr.replace "/" "%2F" project_id))
  | Raise e => (Raise e, w +call ProjectsGet project_id)
  end.
Proof.
  unfold resolve_project, projects_get. run.
  destruct (Gitlab.projects_get (gl self) project_id) as [project|e]; run;
    [done|].
  destruct e; run; try done.
  by destruct (Gitlab.projects_get (gl self) (PyStr.replace _ _ _)).
Qed.

Lemma get_merge_requests_unfold self project_id state w :
  get_merge_requests self project_id state w =
  match resolve_project self project_id w with
  | (Ok project, w1) =>
      match Gitlab.mergerequests_list project state with
      | Ok l => (Ok (mr_info <$> l), w1 +call MergeRequestsList state)
      | Raise e => (Raise (PyException (wrapped_message project_id e)),
                    w1 +call MergeRequestsList state)
      end
  | (Raise e, w1) => (Raise (PyException (wrapped_message project_id e)), w1)
  end.
Proof.
  unfold get_merge_requests. run.
  destruct (resolve_project self project_id w) as [[project|e] w1]; run.
  - destruct (Gitlab.mergerequests_list project state) as [l|e]; run;
      [done|by destruct e].
  - by destruct e.
Qed.

(** X1: when the direct lookup of the identifier succeeds (as for a valid
    numeric id), resolution is that one lookup: no encoded lookup is made, and
    [get_merge_requests] goes on to the listing call with the project
    found. *)
Theorem direct_lookup_needs_no_fallback self project_id state w project :
  Gitlab.projects_get (gl self) project_id = Ok project →
  resolve_project self project_id w
    = (Ok project, w +call ProjectsGet project_id) ∧
  trace (get_merge_requests self project_id state w).2
    = trace w ++ [ProjectsGet project_id; MergeRequestsList state].
Proof.
  intros Hdirect.
  assert (resolve_project self project_id w
          = (Ok project, w +call ProjectsGet project_id)) as Hres.
  { by rewrite resolve_project_unfold, Hdirect. }
  split; [done|].
  rewrite get_merge_requests_unfold, Hres.
  destruct (Gitlab.mergerequests_list project state); simpl;
    by rewrite <- app_assoc.
Qed.

Lemma direct_lookup_needs_no_fallback_witness :
  resolve_project {| gl := Sample.client "77" |} "77" (Sample.world [])
    = (Ok Sample.repo, Sample.world [] +call ProjectsGet "77") ∧
  trace (get_merge_requests {| gl := Sample.client "77" |} "77" "merged"
           (Sample.world [])).2
    = trace (Sample.world []) ++ [ProjectsGet "77"; MergeRequestsList "merged"].
Proof.
  apply (direct_lookup_needs_no_fallback {| gl := Sample.client "77" |} "77"
           "merged" (Sample.world []) Sample.repo).
  reflexivity.
Defined.

(** X2: a direct lookup that fails with anything but the platform's
    not-found error is not retried: after that single lookup
    [get_merge_requests] raises a plain [Exception], with the fixed
    authentication message for an authentication error and the
    "unexpected error" message around the error text otherwise. *)
Theorem other_lookup_errors_are_not_retried self project_id state w e :
  Gitlab.projects_get (gl self) project_id = Raise e →
  (∀ m, e ≠ GitlabGetError m) →
  get_merge_requests self project_id state w
  = (Raise (PyException
             match e with
             | GitlabAuthenticationError _ =>
                 "Authentication failed. Please check your GitLab token."
             | _ => "An unexpected error occurred: " +:+ str e
             end),
     w +call ProjectsGet project_id).
Proof.
  intros Hdirect Hclass.
  rewrite get_merge_requests_unfold, resolve_project_unfold, Hdirect.
  destruct e; try done. by destruct (Hclass msg).
Qed.

Lemma other_lookup_errors_are_not_retried_witness :
  let self :=
    {| gl := {| Gitlab.projects_get := λ _,
                  Raise (ClientError "Connection refused") |} |} in
  get_merge_requests self "group/repo" "opened" (Sample.world [])
  = (Raise (PyException "An unexpected error occurred: Connection refused"),
     Sample.world [] +call ProjectsGet "group/repo").
Proof.
  apply (other_lookup_errors_are_not_retried
           {| gl := {| Gitlab.projects_get := λ _,
                         Raise (ClientError "Connection refused") |} |}
           "group/repo" "opened" (Sample.world [])
           (ClientError "Connection refused")).
  - reflexivity.
  - discriminate.
Defined.

(** X3: once the project is resolved and the platform lists the merge
    requests of the requested state, [get_merge_requests] returns one dict per
    listed merge request, in the platform's order, carrying that merge
    request's id, title and state and no [changes] key; an empty listing gives
    the empty list, not an error. *)
Theorem get_merge_requests_maps_the_listing self project_id state w project w1 l :
  resolve_project self project_id w = (Ok project, w1) →
  Gitlab.mergerequests_list project state = Ok l →
  ∃ ds,
    get_merge_requests self project_id state w
      = (Ok ds, w1 +call MergeRequestsList state) ∧
    length ds = length l ∧
    (l = [] → ds = []) ∧
    ∀ i mr, l !! i = Some mr →
      ∃ d, ds !! i = Some d ∧
           MRDict.id d = Gitlab.iid mr ∧
           MRDict.title d = Gitlab.title mr ∧
           MRDict.state d = Gitlab.state mr ∧
           MRDict.changes d = None.
Proof.
  intros Hres Hlist. exists (mr_info <$> l).
  rewrite get_merge_requests_unfold, Hres, Hlist.
  split_and!; [done|by rewrite length_fmap|by intros ->|].
  intros i mr Hi. exists (mr_info mr). by rewrite list_lookup_fmap, Hi.
Qed.

Lemma get_merge_requests_maps_the_listing_witness :
  ∃ ds,
    get_merge_requests {| gl := Sample.client "group/repo" |} "group/repo"
      "merged" (Sample.world [])
      = (Ok ds, Sample.world [] +call ProjectsGet "group/repo"
                  +call MergeRequestsList "merged") ∧
    length ds = length [Sample.mr7] ∧
    ([Sample.mr7] = [] → ds = []) ∧
    ∀ i mr, [Sample.mr7] !! i = Some mr →
      ∃ d, ds !! i = Some d ∧
           MRDict.id d = Gitlab.iid mr ∧
           MRDict.title d = Gitlab.title mr ∧
           MRDict.state d = Gitlab.state mr ∧
           MRDict.changes d = None.
Proof.
  apply (get_merge_requests_maps_the_listing
           {| gl := Sample.client "group/repo" |} "group/repo" "merged"
           (Sample.world []) Sample.repo
           (Sample.world [] +call ProjectsGet "group/repo") [Sample.mr7]).
  - reflexivity.
  - reflexivity.
Defined.

(** X4: a failure of the listing call, after the project was resolved,
    comes out as a plain [Exception] whose message depends on the class of the
    error alone; a not-found error of the listing thus reads exactly like an
    unresolvable project. *)
Theorem listing_errors_are_wrapped self project_id state w project w1 e :
  resolve_project self project_id w = (Ok project, w1) →
  Gitlab.mergerequests_list project state = Raise e →
  get_merge_requests self project_id state w
  = (Raise (PyException (wrapped_message project_id e)),
     w1 +call MergeRequestsList state) ∧
  ∀ m, e = GitlabGetError m →
       wrapped_message project_id e
       = "Failed to retrieve merge requests for project "
           +:+ project_id +:+ ". Error: " +:+ m.
Proof.
  intros Hres Hlist.
  rewrite get_merge_requests_unfold, Hres, Hlist. split; [done|].
  by intros m ->.
Qed.

Lemma listing_errors_are_wrapped_witness :
  let project :=
    {| Gitlab.project_name := "repo";
       Gitlab.mergerequests_list := λ _, Raise (GitlabGetError "403: Forbidden");
       Gitlab.mergerequests_get := λ _, Raise Sample.not_found |} in
  let self := {| gl := {| Gitlab.projects_get := λ _, Ok project |} |} in
  get_merge_requests self "group/repo" "opened" (Sample.world [])
  = (Raise (PyException
              (wrapped_message "group/repo" (GitlabGetError "403: Forbidden"))),
     Sample.world [] +call ProjectsGet "group/repo"
       +call MergeRequestsList "opened") ∧
  ∀ m, GitlabGetError "403: Forbidden" = GitlabGetError m →
       wrapped_message "group/repo" (GitlabGetError "403: Forbidden")
       = "Failed to retrieve merge requests for project "
           +:+ "group/repo" +:+ ". Error: " +:+ m.
Proof.
  eapply listing_errors_are_wrapped.
  - reflexivity.
  - reflexivity.
Defined.

Lemma replace_without_separator s :
  PyStr.contains "/" s = false → PyStr.replace "/" "%2F" s = s.
Proof.
  induction s as [|a s IH]; [done|].
  cbn [PyStr.contains PyStr.replace].
  destruct (Ascii.eqb a "/"); [done|]. intros Hs. by rewrite IH.
Qed.

(** X5: for an identifier without ['/'] (a numeric id, say) the encoded
    form is the identifier itself, so after a not-found direct lookup the
    retry asks for the very same identifier again; on an unchanged platform it
    fails the same way and [get_merge_requests] raises the descriptive
    exception after two identical lookups. *)
Theorem retry_repeats_an_identifier_without_separator self project_id state w m :
  PyStr.contains "/" project_id = false →
  Gitlab.projects_get (gl self) project_id = Raise (GitlabGetError m) →
  PyStr.replace "/" "%2F" project_id = project_id ∧
  get_merge_requests self project_id state w
  = (Raise (PyException ("Failed to retrieve merge requests for project "
                           +:+ project_id +:+ ". Error: " +:+ m)),
     w +call ProjectsGet project_id +call ProjectsGet project_id).
Proof.
  intros Hsep%replace_without_separator Hdirect. split; [done|].
  by rewrite get_merge_requests_unfold, resolve_project_unfold, Hdirect,
    Hsep, Hdirect.
Qed.

Lemma retry_repeats_an_identifier_without_separator_witness :
  PyStr.replace "/" "%2F" "12345" = "12345" ∧
  get_merge_requests {| gl := Sample.client "group/repo" |} "12345" "opened"
    (Sample.world [])
  = (Raise (PyException ("Failed to retrieve merge requests for project "
                           +:+ "12345" +:+ ". Error: " +:+ "404: 404 Not Found")),
     Sample.world [] +call ProjectsGet "12345" +call ProjectsGet "12345").
Proof.
  apply (retry_repeats_an_identifier_without_separator
           {| gl := Sample.client "group/repo" |} "12345" "opened"
           (Sample.world []) "404: 404 Not Found").
  - reflexivity.
  - reflexivity.
Defined.

(** X6: whatever the platform answers, [get_merge_requests] makes one
    project lookup, at most one more (of the encoded identifier), and at most
    one listing call after them, in that order; it makes no other call, leaves
    the wiki alone, and ends either with a list or with a plain
    [Exception]. *)
Theorem get_merge_requests_call_patterns self project_id state w :
  let encoded := PyStr.replace "/" "%2F" project_id in
  let '(r, w') := get_merge_requests self project_id state w in
  wiki w' = wiki w ∧
  (∃ retry listing,
     trace w' = trace w ++ [ProjectsGet project_id] ++ retry ++ listing ∧
     (retry = [] ∨ retry = [ProjectsGet encoded]) ∧
     (listing = [] ∨ listing = [MergeRequestsList state])) ∧
  match r with
  | Ok _ => True
  | Raise e => ∃ msg, e = PyException msg
  end.
Proof.
  intros encoded.
  rewrite get_merge_requests_unfold, resolve_project_unfold.
  fold encoded.
  assert (∀ (retry : list call) (r : result Gitlab.Project) w1,
    retry = [] ∨ retry = [ProjectsGet encoded] →
    wiki w1 = wiki w →
    trace w1 = trace w ++ [ProjectsGet project_id] ++ retry →
    let '(r', w') :=
      match r with
      | Ok project =>
          match Gitlab.mergerequests_list project state with
          | Ok l => (Ok (mr_info <$> l), w1 +call MergeRequestsList state)
          | Raise e => (Raise (PyException (wrapped_message project_id e)),
                        w1 +call MergeRequestsList state)
          end
      | Raise e => (Raise (PyException (wrapped_message project_id e)), w1)
      end in
    wiki w' = wiki w ∧
    (∃ retry listing,
       trace w' = trace w ++ [ProjectsGet project_id] ++ retry ++ listing ∧
       (retry = [] ∨ retry = [ProjectsGet encoded]) ∧
       (listing = [] ∨ listing = [MergeRequestsList state])) ∧
    match r' with
    | Ok _ => True
    | Raise e => ∃ msg, e = PyException msg
    end) as Hrest.
  { intros retry r w1 Hretry Hwiki Htrace. destruct r as [project|e].
    - destruct (Gitlab.mergerequests_list project state);
        (split_and!; [done| |by eauto]);
        exists retry, [MergeRequestsList state]; simpl;
        rewrite Htrace, <- !app_assoc; auto.
    - split_and!; [done| |by eauto].
      exists retry, []. rewrite Htrace, app_nil_r. auto. }
  destruct (Gitlab.projects_get (gl self) project_id) as [project|e] eqn:Hd.
  - by apply (Hrest [] (Ok project)); [left|..].
  - destruct e;
      try (by apply (Hrest [] (Raise _)); [left|..]).
    apply (Hrest [ProjectsGet encoded]); [by right|done|].
    simpl. by rewrite <- app_assoc.
Qed.

(** ** [fetch_mr_details] *)

Lemma fetch_mr_details_specific self project_id mr_id w :
  mr_id ≠ 0%Z →
  fetch_mr_details self project_id (Some mr_id) w
  = fetch_one self project_id mr_id w.
Proof.
  intros Hid%Z.eqb_neq. unfold fetch_mr_details.
  by rewrite try_reraise, Hid.
Qed.

Lemma fetch_mr_details_listing self project_id mr_id w :
  mr_id = None ∨ mr_id = Some 0%Z →
  fetch_mr_details self project_id mr_id w
  = (let '(r, w') :=
       get_merge_requests (gitlab_manager self) project_id "opened" w in
     (match r with Ok l => Ok (Many l) | Raise e => Raise e end, w')).
Proof.
  intros Hid. unfold fetch_mr_details. rewrite try_reraise.
  assert (fetch_all self project_id w
          = (let '(r, w') :=
               get_merge_requests (gitlab_manager self) project_id "opened" w in
             (match r with Ok l => Ok (Many l) | Raise e => Raise e end, w')))
    as Hall.
  { unfold fetch_all. run.
    by destruct (get_merge_requests _ _ _ w) as [[l|e] w1]. }
  by destruct Hid as [-> | ->].
Qed.




(** X7: for an opened merge request fetched by its non-zero id,
    [fetch_mr_details] makes three calls (project lookup, merge-request
    lookup, [mr.changes()]).  If [mr.changes()] completes, the dict returned
    carries the merge request's id, title and state and exactly the change
    list the platform gave; if it raises, the whole operation raises that
    error and no partial dict is returned. *)
Theorem fetch_opened_merge_request self project_id mr_id w project mr :
  mr_id ≠ 0%Z →
  Gitlab.projects_get (gl (gitlab_manager self)) project_id = Ok project →
  Gitlab.mergerequests_get project mr_id = Ok mr →
  Gitlab.state mr = "opened" →
  let w' := w +call ProjectsGet project_id +call MergeRequestsGet mr_id
              +call Changes (Gitlab.iid mr) in
  match Gitlab.changes mr with
  | Ok cs =>
      ∃ d, fetch_mr_details self project_id (Some mr_id) w = (Ok (Single d), w') ∧
           MRDict.changes d = Some cs ∧
           MRDict.id d = Gitlab.iid mr ∧
           MRDict.title d = Gitlab.title mr ∧
           MRDict.state d = "opened"
  | Raise e =>
      fetch_mr_details self project_id (Some mr_id) w = (Raise e, w')
  end.
Proof.
  intros Hid Hproject Hmr Hstate w'.
  rewrite (fetch_mr_details_specific _ _ _ _ Hid).
  unfold fetch_one, projects_get. run.
  rewrite Hproject. run. rewrite Hmr. run. rewrite Hstate. run.
  destruct (Gitlab.changes mr) as [cs|e]; run; [|done].
  eexists. by split; [reflexivity|].
Qed.

Lemma fetch_opened_merge_request_witness :
  let self := Sample.analyzer "group/repo" None in
  let w' := Sample.world [] +call ProjectsGet "group/repo"
              +call MergeRequestsGet 42 +call Changes 42 in
  ∃ d, fetch_mr_details self "group/repo" (Some 42%Z) (Sample.world [])
         = (Ok (Single d), w') ∧
       MRDict.changes d = Some [Sample.app_change] ∧
       MRDict.id d = 42%Z ∧
       MRDict.title d = "Add app" ∧
       MRDict.state d = "opened".
Proof.
  apply (fetch_opened_merge_request (Sample.analyzer "group/repo" None)
           "group/repo" 42%Z (Sample.world []) Sample.repo Sample.mr42).
  - discriminate.
  - reflexivity.
  - reflexivity.
  - reflexivity.
Defined.

(** X8: on the path for one merge request (non-zero id) the errors of the
    platform come out unchanged, class and text: a failing project lookup
    ends the operation after one call, a failing merge-request lookup after
    two.  (The listing path, in contrast, turns every error into a plain
    [Exception].) *)
Theorem fetch_one_propagates_errors self project_id mr_id w e :
  mr_id ≠ 0%Z →
  (Gitlab.projects_get (gl (gitlab_manager self)) project_id = Raise e →
   fetch_mr_details self project_id (Some mr_id) w
   = (Raise e, w +call ProjectsGet project_id)) ∧
  (∀ project,
     Gitlab.projects_get (gl (gitlab_manager self)) project_id = Ok project →
     Gitlab.mergerequests_get project mr_id = Raise e →
     fetch_mr_details self project_id (Some mr_id) w
     = (Raise e, w +call ProjectsGet project_id +call MergeRequestsGet mr_id)).
Proof.
  intros Hid. rewrite (fetch_mr_details_specific _ _ _ _ Hid).
  unfold fetch_one, projects_get. split.
  - intros Hproject. run. by rewrite Hproject.
  - intros project Hproject Hmr. run. rewrite Hproject. run. by rewrite Hmr.
Qed.

Lemma fetch_one_propagates_errors_witness :
  let self := Sample.analyzer "group/repo" None in
  fetch_mr_details self "group/repo" (Some 99%Z) (Sample.world [])
  = (Raise Sample.not_found,
     Sample.world [] +call ProjectsGet "group/repo" +call MergeRequestsGet 99).
Proof.
  apply (proj2 (fetch_one_propagates_errors
                  (Sample.analyzer "group/repo" None) "group/repo" 99%Z
                  (Sample.world []) Sample.not_found ltac:(discriminate))
           Sample.repo).
  - reflexivity.
  - reflexivity.
Defined.

(** X9: [fetch_mr_details] and [analyze_code_changes] only read from the
    hosting platform: whatever their arguments and outcome, the wiki is as it
    was and every call made is a call to the hosting platform. *)
Theorem fetch_and_analyze_leave_the_wiki_alone self project_id w :
  (∀ mr_id,
     let w' := (fetch_mr_details self project_id mr_id w).2 in
     wiki w' = wiki w ∧
     ∃ calls, trace w' = trace w ++ calls ∧ Forall is_gitlab_call calls) ∧
  (∀ mr_id,
     let w' := (analyze_code_changes self project_id mr_id w).2 in
     wiki w' = wiki w ∧
     ∃ calls, trace w' = trace w ++ calls ∧ Forall is_gitlab_call calls).
Proof.
  split; intros mr_id.
  - apply (fetch_mr_details_gitlab self project_id mr_id w
             (fetch_mr_details self project_id mr_id w).1).
    apply surjective_pairing.
  - rewrite analyze_code_changes_unfold.
    destruct (fetch_mr_details self project_id (Some mr_id) w)
      as [r w1] eqn:Hfetch.
    apply fetch_mr_details_gitlab in Hfetch.
    by destruct r as [[d|l]|e].
Qed.

(** ** [analyze_code_changes] *)

(** X10: [analyze_code_changes] with [mr_id] equal to 0 never returns a
    report.  The fetch takes the listing path, and the list it returns has no
    [get]: the call raises [AttributeError] when the listing succeeds, and
    the plain [Exception] of [get_merge_requests] when it fails. *)
Theorem analyze_code_changes_zero_raises self project_id w :
  let '(r, w') :=
    get_merge_requests (gitlab_manager self) project_id "opened" w in
  analyze_code_changes self project_id 0 w
  = (Raise match r with
           | Ok _ => AttributeError "'list' object has no attribute 'get'"
           | Raise e => e
           end, w') ∧
  match r with
  | Ok _ => True
  | Raise e => ∃ msg, e = PyException msg
  end.
Proof.
  rewrite analyze_code_changes_unfold.
  rewrite (fetch_mr_details_listing self project_id (Some 0%Z) w) by auto.
  destruct (get_merge_requests _ _ _ w) as [[l|e] w1] eqn:Hlist;
    (split; [done|]); [done|].
  by eapply get_merge_requests_raises.
Qed.

Section FileTypes.

Implicit Types (changes : list Gitlab.Change) (acc : AnalysisReport).

Lemma files_of_type_cons t c changes :
  files_of_type t (c :: changes)
  = (if decide (file_type (Gitlab.new_path c) = t) then 1 else 0)
    + files_of_type t changes.
Proof.
  unfold files_of_type. rewrite filter_cons. by case_decide.
Qed.

Lemma foldl_analyze_lookup t changes acc :
  file_types (foldl analyze_change acc changes) !! t
  = match files_of_type t changes with
    | 0 => file_types acc !! t
    | S n => Some (default 0 (file_types acc !! t) + S n)
    end.
Proof.
  revert acc. induction changes as [|c cs IH]; intros acc; [done|].
  cbn [foldl]. rewrite IH, files_of_type_cons.
  unfold analyze_change at 1 2. cbn [file_types].
  case_decide as Ht.
  - rewrite Ht, lookup_insert_eq. cbn [default].
    destruct (files_of_type t cs); simpl; f_equal; lia.
  - by rewrite lookup_insert_ne.
Qed.

Lemma analyze_lookup t changes :
  file_types (analyze changes) !! t
  = match files_of_type t changes with 0 => None | S n => Some (S n) end.
Proof.
  unfold analyze. rewrite foldl_analyze_lookup. cbn [file_types].
  rewrite lookup_empty. by destruct (files_of_type t changes).
Qed.

Lemma analyze_lookup_default t changes :
  default 0 (file_types (analyze changes) !! t) = files_of_type t changes.
Proof. rewrite analyze_lookup. by destruct (files_of_type t changes). Qed.

Lemma analyze_additions changes :
  total_additions (analyze changes)
  = sum_list_with additions (entry_of <$> changes).
Proof. unfold analyze. by rewrite foldl_analyze_additions. Qed.

Lemma analyze_deletions changes :
  total_deletions (analyze changes)
  = sum_list_with deletions (entry_of <$> changes).
Proof. unfold analyze. by rewrite foldl_analyze_deletions. Qed.

Lemma analyze_total changes :
  total_files_changed (analyze changes) = length changes.
Proof. unfold analyze. by rewrite foldl_analyze_total. Qed.

End FileTypes.

(** X11: in the report of a change list, [file_types] maps a category to
    the number of changes of that category, and has no key for a category
    without a change: its keys are exactly the categories that occur, each
    with a count of at least one. *)
Theorem file_types_counts_each_category changes t :
  file_types (analyze changes) !! t
  = (if decide (files_of_type t changes = 0) then None
     else Some (files_of_type t changes)) ∧
  (is_Some (file_types (analyze changes) !! t) ↔
   ∃ c, c ∈ changes ∧ file_type (Gitlab.new_path c) = t).
Proof.
  rewrite analyze_lookup. split.
  - by destruct (files_of_type t changes).
  - unfold files_of_type.
    destruct (filter _ changes) as [|c l] eqn:Hfilter; simpl.
    + split; [by intros [? ?]|]. intros (c & Hc & Ht).
      assert (c ∈ filter (λ c, file_type (Gitlab.new_path c) = t) changes)
        as Hin by by apply list_elem_of_filter.
      rewrite Hfilter in Hin. by apply elem_of_nil in Hin.
    + split; [|by eauto]. intros _. exists c.
      assert (c ∈ filter (λ c, file_type (Gitlab.new_path c) = t) changes)
        as Hin by (rewrite Hfilter; apply list_elem_of_here).
      apply list_elem_of_filter in Hin as [Ht Hc]. done.
Qed.

(** X12: reports compose.  The report of two change lists put end to end
    has the sums of the two reports' totals and file counts, the two file
    lists one after the other, and for every category the sum of the two
    counts. *)
Theorem analyze_app changes1 changes2 :
  let r := analyze (changes1 ++ changes2) in
  let r1 := analyze changes1 in
  let r2 := analyze changes2 in
  total_files_changed r = total_files_changed r1 + total_files_changed r2 ∧
  total_additions r = total_additions r1 + total_additions r2 ∧
  total_deletions r = total_deletions r1 + total_deletions r2 ∧
  files r = files r1 ++ files r2 ∧
  ∀ t, default 0 (file_types r !! t)
       = default 0 (file_types r1 !! t) + default 0 (file_types r2 !! t).
Proof.
  cbv zeta. rewrite !analyze_total, !analyze_additions, !analyze_deletions,
    !files_analyze, fmap_app, !sum_list_with_app, length_app.
  split_and!; try done.
  intros t. rewrite !analyze_lookup_default.
  unfold files_of_type. by rewrite filter_app, length_app.
Qed.

(** X13: reordering the change list leaves the totals, the number of
    files and the count recorded for every category as they are, and the
    [files] list follows the changes: in either order it is the list of the
    entries of the changes, entry by entry.  (The order of the keys of
    [file_types] is not part of the statement.) *)
Theorem analyze_permutation changes1 changes2 :
  changes1 ≡ₚ changes2 →
  let r1 := analyze changes1 in
  let r2 := analyze changes2 in
  total_files_changed r1 = total_files_changed r2 ∧
  total_additions r1 = total_additions r2 ∧
  total_deletions r1 = total_deletions r2 ∧
  (∀ t, file_types r1 !! t = file_types r2 !! t) ∧
  (∀ i, files r1 !! i = entry_of <$> changes1 !! i) ∧
  (∀ i, files r2 !! i = entry_of <$> changes2 !! i).
Proof.
  intros Hperm. cbv zeta.
  rewrite !analyze_total, !analyze_additions, !analyze_deletions,
    !files_analyze.
  split_and!.
  - by rewrite Hperm.
  - by rewrite Hperm.
  - by rewrite Hperm.
  - intros t. rewrite !analyze_lookup.
    unfold files_of_type. by rewrite Hperm.
  - intros i. apply list_lookup_fmap.
  - intros i. apply list_lookup_fmap.
Qed.

Lemma analyze_permutation_witness :
  let r1 := analyze [Sample.app_change; Sample.readme_change] in
  let r2 := analyze [Sample.readme_change; Sample.app_change] in
  total_files_changed r1 = total_files_changed r2 ∧
  total_additions r1 = total_additions r2 ∧
  total_deletions r1 = total_deletions r2 ∧
  (∀ t, file_types r1 !! t = file_types r2 !! t) ∧
  (∀ i, files r1 !! i
        = entry_of <$> [Sample.app_change; Sample.readme_change] !! i) ∧
  (∀ i, files r2 !! i
        = entry_of <$> [Sample.readme_change; Sample.app_change] !! i).
Proof.
  apply (analyze_permutation [Sample.app_change; Sample.readme_change]
           [Sample.readme_change; Sample.app_change]).
  apply perm_swap.
Defined.

(** ** The file-extension category *)

Lemma contains_app_sep c stem rest :
  PyStr.contains c (stem +:+ String c rest) = true.
Proof.
  induction stem as [|a stem IH]; simpl.
  - by rewrite Ascii.eqb_refl.
  - by destruct (Ascii.eqb a c).
Qed.

Lemma split_last_app c stem ext :
  PyStr.contains c ext = false →
  PyStr.last_item (PyStr.split c (stem +:+ String c ext)) = Some ext.
Proof.
  intros Hext. unfold PyStr.last_item.
  induction stem as [|a stem IH]; simpl.
  - by rewrite Ascii.eqb_refl, (split_no_sep _ _ Hext).
  - destruct (split_sep c (stem +:+ String c ext) (contains_app_sep _ _ _))
      as (p & q & r & Hsplit).
    rewrite Hsplit in *. by destruct (Ascii.eqb a c).
Qed.

(** X14: a path made of any stem, a dot and a dot-free extension has that
    extension as its category, whatever the stem and the extension hold
    otherwise: hidden files ([.gitignore] gives [gitignore]) and dots in
    directory names ([v1.2/Makefile] gives [2/Makefile]) included. *)
Theorem file_type_of_stem_and_extension stem ext :
  PyStr.contains "." ext = false →
  file_type (stem +:+ "." +:+ ext) = ext.
Proof.
  intros Hext. unfold file_type.
  change (stem +:+ "." +:+ ext) with (stem +:+ String "." ext).
  by rewrite contains_app_sep, (split_last_app _ _ _ Hext).
Qed.

Lemma file_type_of_stem_and_extension_witness :
  file_type ("v1" +:+ "." +:+ "2/Makefile") = "2/Makefile".
Proof.
  apply (file_type_of_stem_and_extension "v1" "2/Makefile"). reflexivity.
Defined.

(** X15: the category of a path never contains a dot, and it is
    "unknown" for every path without a dot. *)
Theorem file_type_has_no_dot path :
  PyStr.contains "." (file_type path) = false ∧
  (PyStr.contains "." path = false → file_type path = "unknown").
Proof.
  unfold file_type. destruct (PyStr.contains "." path) eqn:Hdot.
  - destruct (split_last_suffix _ _ Hdot) as (stem & piece & -> & _ & Hpiece).
    done.
  - done.
Qed.

Lemma file_type_has_no_dot_witness : file_type "Makefile" = "unknown".
Proof. apply (proj2 (file_type_has_no_dot "Makefile")). reflexivity. Defined.

(** ** Bounds on the counts *)

Lemma count_le_code_points c1 c2 s :
  c1 ≠ c2 → is_continuation_byte c1 = false → is_continuation_byte c2 = false →
  PyStr.count c1 s + PyStr.count c2 s ≤ code_points s.
Proof.
  intros Hne H1 H2. induction s as [|a s IH]; simpl; [lia|].
  destruct (Ascii.eqb_spec a c1) as [Ha1|Ha1],
    (Ascii.eqb_spec a c2) as [Ha2|Ha2]; subst.
  - congruence.
  - rewrite H1. lia.
  - rewrite H2. lia.
  - destruct (is_continuation_byte a); lia.
Qed.

(** X16: the two totals of a report together never exceed the total
    number of characters of the diff texts they were counted in ([len] of
    each text, in code points): a character is at most one of ['+'] and
    ['-']. *)
Theorem totals_bounded_by_diff_length changes :
  total_additions (analyze changes) + total_deletions (analyze changes)
  ≤ sum_list_with (λ c, code_points (Gitlab.diff c)) changes.
Proof.
  rewrite analyze_additions, analyze_deletions.
  induction changes as [|c cs IH]; [done|].
  rewrite fmap_cons. cbn [sum_list_with]. unfold entry_of at 1 3.
  cbn [additions deletions].
  pose proof (count_le_code_points "+" "-" (Gitlab.diff c)
                ltac:(done) eq_refl eq_refl). lia.
Qed.

(** ** [store_in_confluence] *)

Lemma publish_page_unfold self title body w :
  let lookup := GetPageId (confluence_space self) "PR Analysis Reports" in
  let creation :=
    CreatePage (confluence_space self) title body
      (page_parent (new_page self (wiki w) title body)) in
  publish_page self title body w =
  match wiki_fault (wiki w) lookup with
  | Some e => (Raise e, w +call lookup)
  | None =>
      match wiki_fault (wiki w) creation with
      | Some e => (Raise e, w +call lookup +call creation)
      | None =>
          (Ok (wiki_base (wiki w) +:+ wiki_webui (wiki w) (fresh_id (wiki w))),
           {| trace := trace w ++ [lookup; creation];
              wiki := add_page (wiki w) (new_page self (wiki w) title body) |})
      end
  end.
Proof.
  intros lookup creation.
  unfold publish_page, get_page_id, create_page, wiki_call. run.
  fold lookup.
  destruct (wiki_fault (wiki w) lookup); [done|].
  unfold creation, new_page. simpl.
  destruct (wiki_fault (wiki w) _); [done|].
  by rewrite <- app_assoc.
Qed.

Lemma store_in_confluence_unfold self project_id mr_id analysis c w :
  confluence self = Some c →
  store_in_confluence self project_id mr_id analysis w =
  match mr_id, fetch_mr_details self project_id mr_id w with
  | _, (Raise e, w1) => (Raise e, w1)
  | None, (Ok (Many l), w1) =>
      publish_page self ("MR Summary - " +:+ project_id) (SummaryBody l) w1
  | None, (Ok (Single _), w1) =>
      (Raise (ValueError "Unexpected response format from fetch_mr_details"),
       w1)
  | Some _, (Ok (Single d), w1) =>
      publish_page self ("MR Analysis - " +:+ MRDict.title d)
        (mr_body d analysis) w1
  | Some _, (Ok (Many _), w1) =>
      (Raise (TypeError "list indices must be integers or slices, not str"),
       w1)
  end.
Proof.
  intros Hc. unfold store_in_confluence. rewrite Hc, try_reraise.
  destruct mr_id as [n|].
  - destruct analysis as [a|];
      unfold mbind at 1, M_bind; unfold mbind at 1, M_bind;
      destruct (fetch_mr_details self project_id (Some n) w)
        as [[[d|l]|e] w1]; try done.
  - unfold mbind at 1, M_bind.
    by destruct (fetch_mr_details self project_id None w) as [[[d|l]|e] w1].
Qed.

(** X17: the summary page.  With the wiki client configured, [mr_id]
    absent, the listing of opened merge requests succeeding and the wiki
    accepting the lookup and the creation, [store_in_confluence] returns the
    wiki's base link followed by the new page's relative link, and the one
    page it adds is titled "MR Summary - " with the project identifier and
    holds the dicts of exactly the opened merge requests that
    [get_merge_requests] returned, in their order. *)
Theorem store_summary_page self project_id analysis c w l w1 :
  let title := "MR Summary - " +:+ project_id in
  let page := new_page self (wiki w) title (SummaryBody l) in
  let lookup := GetPageId (confluence_space self) "PR Analysis Reports" in
  let creation :=
    CreatePage (confluence_space self) title (SummaryBody l) (page_parent page) in
  confluence self = Some c →
  get_merge_requests (gitlab_manager self) project_id "opened" w = (Ok l, w1) →
  wiki_fault (wiki w) lookup = None →
  wiki_fault (wiki w) creation = None →
  store_in_confluence self project_id None analysis w
  = (Ok (wiki_base (wiki w) +:+ wiki_webui (wiki w) (page_id page)),
     {| trace := trace w1 ++ [lookup; creation];
        wiki := add_page (wiki w) page |}).
Proof.
  intros title page lookup creation Hc Hlist Hlookup Hcreation.
  rewrite (store_in_confluence_unfold _ _ _ _ _ _ Hc).
  rewrite (fetch_mr_details_listing self project_id None w) by auto.
  rewrite Hlist.
  destruct (get_merge_requests_listing _ _ _ _ _ _ Hlist) as [Hwiki _].
  rewrite publish_page_unfold. cbv zeta. rewrite !Hwiki.
  fold title. fold lookup. rewrite Hlookup.
  fold page. fold creation. by rewrite Hcreation.
Qed.

Lemma store_summary_page_witness :
  let self := Sample.analyzer "group/repo" (Some Sample.wiki_client) in
  let w := Sample.world [Sample.parent_page] in
  let page := new_page self (wiki w) "MR Summary - group/repo"
                (SummaryBody [mr_info Sample.mr42]) in
  store_in_confluence self "group/repo" None None w
  = (Ok ("https://wiki.example.com" +:+ wiki_webui (wiki w) 2),
     {| trace := [ProjectsGet "group/repo"; MergeRequestsList "opened";
                  GetPageId "ENG" "PR Analysis Reports";
                  CreatePage "ENG" "MR Summary - group/repo"
                    (SummaryBody [mr_info Sample.mr42]) (Some 1)];
        wiki := add_page (wiki w) page |}).
Proof.
  apply (store_summary_page
           (Sample.analyzer "group/repo" (Some Sample.wiki_client))
           "group/repo" None Sample.wiki_client
           (Sample.world [Sample.parent_page]) [mr_info Sample.mr42]
           (Sample.world [Sample.parent_page] +call ProjectsGet "group/repo"
              +call MergeRequestsList "opened")).
  - reflexivity.
  - reflexivity.
  - reflexivity.
  - reflexivity.
Defined.

(** X18: the details page of one merge request.  With the wiki client
    configured, no [analysis] passed, the merge request fetched and the wiki
    accepting the lookup and the creation, [store_in_confluence] returns the
    wiki's base link followed by the new page's relative link, and the one
    page it adds is titled "MR Analysis - " with the fetched title and holds
    the details of the fetched dict, its changes included; no call is made
    beyond those of the fetch and the two wiki calls. *)
Theorem store_details_page self project_id mr_id c w d w1 :
  let title := "MR Analysis - " +:+ MRDict.title d in
  let page := new_page self (wiki w) title (DetailsBody d) in
  let lookup := GetPageId (confluence_space self) "PR Analysis Reports" in
  let creation :=
    CreatePage (confluence_space self) title (DetailsBody d) (page_parent page) in
  confluence self = Some c →
  fetch_mr_details self project_id (Some mr_id) w = (Ok (Single d), w1) →
  wiki_fault (wiki w) lookup = None →
  wiki_fault (wiki w) creation = None →
  store_in_confluence self project_id (Some mr_id) None w
  = (Ok (wiki_base (wiki w) +:+ wiki_webui (wiki w) (page_id page)),
     {| trace := trace w1 ++ [lookup; creation];
        wiki := add_page (wiki w) page |}).
Proof.
  intros title page lookup creation Hc Hfetch Hlookup Hcreation.
  rewrite (store_in_confluence_unfold _ _ _ _ _ _ Hc), Hfetch.
  destruct (fetch_mr_details_gitlab _ _ _ _ _ _ Hfetch) as [Hwiki _].
  rewrite publish_page_unfold. cbv zeta. rewrite !Hwiki.
  fold title. fold lookup. rewrite Hlookup.
  change (mr_body d None) with (DetailsBody d).
  fold page. fold creation. by rewrite Hcreation.
Qed.

Lemma store_details_page_witness :
  let self := Sample.analyzer "group/repo" (Some Sample.wiki_client) in
  let w := Sample.world [] in
  let body := DetailsBody Sample.details42 in
  let page := new_page self (wiki w) "MR Analysis - Add app" body in
  store_in_confluence self "group/repo" (Some 42%Z) None w
  = (Ok ("https://wiki.example.com" +:+ wiki_webui (wiki w) 1),
     {| trace := [ProjectsGet "group/repo"; MergeRequestsGet 42; Changes 42;
                  GetPageId "ENG" "PR Analysis Reports";
                  CreatePage "ENG" "MR Analysis - Add app" body None];
        wiki := add_page (wiki w) page |}).
Proof.
  apply (store_details_page
           (Sample.analyzer "group/repo" (Some Sample.wiki_client))
           "group/repo" 42%Z Sample.wiki_client
           (Sample.world []) Sample.details42
           (Sample.world [] +call ProjectsGet "group/repo"
              +call MergeRequestsGet 42 +call Changes 42)).
  - reflexivity.
  - reflexivity.
  - reflexivity.
  - reflexivity.
Defined.

Lemma store_after_fetch self project_id mr_id analysis c w r w1 :
  confluence self = Some c →
  fetch_mr_details self project_id mr_id w = (r, w1) →
  store_in_confluence self project_id mr_id analysis w =
  match r, mr_id with
  | Raise e, _ => (Raise e, w1)
  | Ok (Many l), None =>
      publish_page self ("MR Summary - " +:+ project_id) (SummaryBody l) w1
  | Ok (Single _), None =>
      (Raise (ValueError "Unexpected response format from fetch_mr_details"),
       w1)
  | Ok (Single d), Some _ =>
      publish_page self ("MR Analysis - " +:+ MRDict.title d)
        (mr_body d analysis) w1
  | Ok (Many _), Some _ =>
      (Raise (TypeError "list indices must be integers or slices, not str"),
       w1)
  end.
Proof.
  intros Hc Hfetch. rewrite (store_in_confluence_unfold _ _ _ _ _ _ Hc).
  destruct mr_id as [n|]; rewrite Hfetch; by destruct r as [[d|l]|e].
Qed.

(** What [publish_page] does to the world, whatever the wiki answers. *)
Lemma publish_page_world self title body w r w' :
  publish_page self title body w = (r, w') →
  let lookup := GetPageId (confluence_space self) "PR Analysis Reports" in
  (∃ wiki_calls,
     trace w' = trace w ++ wiki_calls ∧
     (wiki_calls = [lookup] ∨
      ∃ parent_id,
        wiki_calls = [lookup;
                      CreatePage (confluence_space self) title body parent_id])) ∧
  match r with
  | Ok _ => wiki w' = add_page (wiki w) (new_page self (wiki w) title body)
  | Raise _ => wiki w' = wiki w
  end.
Proof.
  rewrite publish_page_unfold. cbv zeta.
  destruct (wiki_fault (wiki w) (GetPageId _ _)).
  { intros [= <- <-]. split; [|done]. eexists. split; [done|]. by left. }
  destruct (wiki_fault (wiki w) (CreatePage _ _ _ _)); intros [= <- <-];
    (split; [|done]); eexists; simpl; rewrite <- ?app_assoc;
    (split; [done|]); right; by eexists.
Qed.

(** X20: [store_in_confluence] with [mr_id] equal to 0 never publishes.
    The id is present, so the summary path is not taken, but the fetch lists
    instead of fetching one merge request and the list cannot be subscripted
    by ['title']: the call always raises, having made listing calls at most
    and no call to the wiki. *)
Theorem store_with_zero_id_never_publishes self project_id analysis w :
  let '(r, w') := store_in_confluence self project_id (Some 0%Z) analysis w in
  (∃ e, r = Raise e) ∧
  wiki w' = wiki w ∧
  ∃ calls, trace w' = trace w ++ calls ∧ Forall is_listing_call calls.
Proof.
  destruct (confluence self) as [c|] eqn:Hc.
  - rewrite (store_in_confluence_unfold _ _ _ _ _ _ Hc).
    rewrite (fetch_mr_details_listing self project_id (Some 0%Z) w) by auto.
    destruct (get_merge_requests _ _ _ w) as [[l|e] w1] eqn:Hlist;
      destruct (get_merge_requests_listing _ _ _ _ _ _ Hlist) as [Hwiki Hcalls];
      eauto.
  - unfold store_in_confluence. rewrite Hc. unfold raise.
    split_and!; [by eauto|done|]. exists []. by rewrite app_nil_r.
Qed.

(** X21: the calls of [store_in_confluence], whatever happens: first
    calls to the hosting platform only, then at most the lookup of the page
    "PR Analysis Reports" followed by at most one page creation, both in the
    configured space.  No page is created without that lookup having been
    answered in the same call, and nothing is called after the creation. *)
Theorem store_call_pattern self project_id mr_id analysis w :
  let w' := (store_in_confluence self project_id mr_id analysis w).2 in
  let lookup := GetPageId (confluence_space self) "PR Analysis Reports" in
  ∃ gitlab_calls wiki_calls,
    trace w' = trace w ++ gitlab_calls ++ wiki_calls ∧
    Forall is_gitlab_call gitlab_calls ∧
    (wiki_calls = [] ∨
     wiki_calls = [lookup] ∨
     ∃ title body parent_id,
       wiki_calls = [lookup;
                     CreatePage (confluence_space self) title body parent_id]).
Proof.
  cbv zeta. destruct (confluence self) as [c|] eqn:Hc.
  - destruct (fetch_mr_details self project_id mr_id w) as [r w1] eqn:Hfetch.
    rewrite (store_after_fetch _ _ _ _ _ _ _ _ Hc Hfetch).
    destruct (fetch_mr_details_gitlab _ _ _ _ _ _ Hfetch)
      as (_ & calls & Htrace & Hcalls).
    assert (∀ title body,
      ∃ gitlab_calls wiki_calls,
        trace (publish_page self title body w1).2
          = trace w ++ gitlab_calls ++ wiki_calls ∧
        Forall is_gitlab_call gitlab_calls ∧
        (wiki_calls = [] ∨
         wiki_calls
           = [GetPageId (confluence_space self) "PR Analysis Reports"] ∨
         ∃ title body parent_id,
           wiki_calls
             = [GetPageId (confluence_space self) "PR Analysis Reports";
                CreatePage (confluence_space self) title body parent_id]))
      as Hpublish.
    { intros title body.
      destruct (publish_page_world self title body w1 _ _
                  (surjective_pairing _)) as [(wiki_calls & Ht & Hshape) _].
      exists calls, wiki_calls. rewrite Ht, Htrace, <- app_assoc.
      split_and!; [done..|]. destruct Hshape as [->|[parent ->]]; eauto 6. }
    assert (∃ gitlab_calls wiki_calls,
      trace w1 = trace w ++ gitlab_calls ++ wiki_calls ∧
      Forall is_gitlab_call gitlab_calls ∧
      (wiki_calls = [] ∨
       wiki_calls
         = [GetPageId (confluence_space self) "PR Analysis Reports"] ∨
       ∃ title body parent_id,
         wiki_calls
           = [GetPageId (confluence_space self) "PR Analysis Reports";
              CreatePage (confluence_space self) title body parent_id]))
      as Hstop.
    { exists calls, []. rewrite app_nil_r. auto. }
    destruct r as [[d|l]|e0], mr_id as [n|]; simpl; auto.
  - unfold store_in_confluence. rewrite Hc. simpl.
    exists [], []. rewrite app_nil_r. auto.
Qed.

(** ** Construction *)

Lemma missing_vars_cases environ :
  missing_vars environ
  = (if env_truthy (environ !! "GITLAB_TOKEN") then [] else ["GITLAB_TOKEN"])
    ++ (if env_truthy (environ !! "GITLAB_PROJECT_ID") then []
        else ["GITLAB_PROJECT_ID"]).
Proof.
  unfold missing_vars, required_vars. rewrite !filter_cons, filter_nil.
  by destruct (env_truthy (environ !! "GITLAB_TOKEN")),
    (env_truthy (environ !! "GITLAB_PROJECT_ID")).
Qed.

(** X22: [PRAnalyzer.__init__] refuses to start when [GITLAB_TOKEN] or
    [GITLAB_PROJECT_ID] is unset or empty.  It raises a [ValueError] naming
    the missing variables, token first, separated by a comma and a space, and
    does so on any hosting platform: the platform is not asked. *)
Theorem init_requires_token_and_project_id hosting environ :
  let token := env_truthy (environ !! "GITLAB_TOKEN") in
  let project := env_truthy (environ !! "GITLAB_PROJECT_ID") in
  token = false ∨ project = false →
  PRAnalyzer_init hosting environ
  = Raise (ValueError
             ("Missing required environment variables: " +:+
              match token, project with
              | false, false => "GITLAB_TOKEN, GITLAB_PROJECT_ID"
              | false, true => "GITLAB_TOKEN"
              | _, _ => "GITLAB_PROJECT_ID"
              end)).
Proof.
  intros token project Hmissing. unfold PRAnalyzer_init.
  rewrite missing_vars_cases. fold token. fold project.
  destruct token, project; try done. by destruct Hmissing.
Qed.

Lemma init_requires_token_and_project_id_witness :
  PRAnalyzer_init sample_hosting {[ "GITLAB_TOKEN" := "" ]}
  = Raise (ValueError
             ("Missing required environment variables: "
                +:+ "GITLAB_TOKEN, GITLAB_PROJECT_ID")).
Proof.
  assert (env_truthy (({[ "GITLAB_TOKEN" := "" ]} : gmap string string)
                        !! "GITLAB_TOKEN") = false) as Htoken.
  { vm_compute. reflexivity. }
  exact (init_requires_token_and_project_id sample_hosting
           {[ "GITLAB_TOKEN" := "" ]} (or_introl Htoken)).
Defined.

(** X23: with both required variables set, [PRAnalyzer.__init__]
    authenticates at once against [GITLAB_URL], or [https://gitlab.com] when
    that variable is unset, with the token.  If authentication raises,
    construction raises the same error; otherwise it succeeds whatever the
    wiki settings are: the wiki client exists exactly when the wiki url,
    username and token are all set and non-empty, and the wiki space, which is
    not among them, is taken as it is, set or not. *)
Theorem init_authenticates_eagerly hosting environ :
  env_truthy (environ !! "GITLAB_TOKEN") = true →
  env_truthy (environ !! "GITLAB_PROJECT_ID") = true →
  let url := default "https://gitlab.com" (environ !! "GITLAB_URL") in
  let token := environ !! "GITLAB_TOKEN" in
  match hosting_auth hosting url token with
  | Raise e => PRAnalyzer_init hosting environ = Raise e
  | Ok _ =>
      ∃ a, PRAnalyzer_init hosting environ = Ok a ∧
           gl (Init.gitlab_manager a) = hosting_client hosting url token ∧
           (is_Some (Init.confluence a) ↔
            env_truthy (environ !! "CONFLUENCE_URL") = true ∧
            env_truthy (environ !! "CONFLUENCE_USERNAME") = true ∧
            env_truthy (environ !! "CONFLUENCE_TOKEN") = true) ∧
           Init.confluence_space a = environ !! "CONFLUENCE_SPACE"
  end.
Proof.
  intros Htoken Hproject url token. unfold PRAnalyzer_init.
  rewrite missing_vars_cases, Htoken, Hproject. cbn [app].
  unfold GitLabPRManager_init. fold url. fold token.
  destruct (hosting_auth hosting url token) as [[]|e]; [|done].
  eexists. split_and!; [reflexivity..| |reflexivity].
  cbn [Init.confluence]. unfold init_confluence. cbn [forallb].
  split.
  - intros [c Hc].
    by destruct (env_truthy (environ !! "CONFLUENCE_URL")),
      (env_truthy (environ !! "CONFLUENCE_USERNAME")),
      (env_truthy (environ !! "CONFLUENCE_TOKEN")).
  - intros (-> & -> & ->). by eexists.
Qed.

Lemma init_authenticates_eagerly_witness :
  let environ : gmap string string :=
    {[ "GITLAB_TOKEN" := "glpat-1"; "GITLAB_PROJECT_ID" := "group/repo";
       "CONFLUENCE_URL" := "https://wiki.example.com";
       "CONFLUENCE_USERNAME" := "bot"; "CONFLUENCE_TOKEN" := "secret" ]} in
  ∃ a, PRAnalyzer_init sample_hosting environ = Ok a ∧
       gl (Init.gitlab_manager a)
         = hosting_client sample_hosting "https://gitlab.com" (Some "glpat-1") ∧
       (is_Some (Init.confluence a) ↔
        env_truthy (environ !! "CONFLUENCE_URL") = true ∧
        env_truthy (environ !! "CONFLUENCE_USERNAME") = true ∧
        env_truthy (environ !! "CONFLUENCE_TOKEN") = true) ∧
       Init.confluence_space a = None.
Proof.
  intros environ.
  assert (env_truthy (environ !! "GITLAB_TOKEN") = true) as Htoken.
  { vm_compute. reflexivity. }
  assert (env_truthy (environ !! "GITLAB_PROJECT_ID") = true) as Hproject.
  { vm_compute. reflexivity. }
  exact (init_authenticates_eagerly sample_hosting environ Htoken Hproject).
Defined.

(** X24: [GITLAB_PROJECT_ID] must be set for [PRAnalyzer.__init__] to
    succeed, yet its value is not used: replacing one non-empty value by
    another changes nothing in the outcome of the construction. *)
Theorem init_ignores_the_project_id_value hosting environ v1 v2 :
  v1 ≠ "" → v2 ≠ "" →
  PRAnalyzer_init hosting (<["GITLAB_PROJECT_ID" := v1]> environ)
  = PRAnalyzer_init hosting (<["GITLAB_PROJECT_ID" := v2]> environ).
Proof.
  intros Hv1 Hv2. unfold PRAnalyzer_init.
  rewrite !missing_vars_cases, !lookup_insert_eq.
  rewrite !(lookup_insert_ne _ "GITLAB_PROJECT_ID") by done.
  by destruct v1, v2.
Qed.

Lemma init_ignores_the_project_id_value_witness :
  PRAnalyzer_init sample_hosting
    (<["GITLAB_PROJECT_ID" := "1"]> {[ "GITLAB_TOKEN" := "glpat-1" ]})
  = PRAnalyzer_init sample_hosting
      (<["GITLAB_PROJECT_ID" := "group/repo"]> {[ "GITLAB_TOKEN" := "glpat-1" ]}).
Proof.
  apply (init_ignores_the_project_id_value sample_hosting
           {[ "GITLAB_TOKEN" := "glpat-1" ]} "1" "group/repo").
  - discriminate.
  - discriminate.
Defined.
